(** * MCP Telegram server: session/transport layer and JSON-RPC router

    A shallow embedding of [src/main.py]: the JSON values the server handles,
    the bounded per-session queues, the tool registry, the request router,
    the call endpoint and the event stream driver, followed by the
    properties of the specification stated against them. *)

From stdpp Require Import gmap strings list.
From Stdlib Require Import ZArith Ascii DecimalString.

#[local] Set Warnings "-register-all".

(** ** Python values *)

(** JSON values as [json.loads] produces them and [json.dumps] consumes
    them.  A Python [dict] keeps insertion order and [json.dumps] prints in
    that order, so objects are association lists; [dict_get] reads the first
    binding of a key.  Floating-point numbers are left out. *)
Inductive JSON : Type :=
| JNull
| JBool (b : bool)
| JInt (n : Z)
| JStr (s : string)
| JList (l : list JSON)
| JObj (o : list (string * JSON)).

Abbreviation PyDict := (list (string * JSON)).

Fixpoint dict_get (d : PyDict) (k : string) : option JSON :=
  match d with
  | [] => None
  | (k', v) :: d' => if String.eqb k' k then Some v else dict_get d' k
  end.

(** [d.get(k)]: the value, or Python's [None]. *)
Definition py_get (d : PyDict) (k : string) : JSON :=
  match dict_get d k with Some v => v | None => JNull end.

(** [d.get(k, dflt)]. *)
Definition py_get_default (d : PyDict) (k : string) (dflt : JSON) : JSON :=
  match dict_get d k with Some v => v | None => dflt end.

(** [bool(v)]: Python truthiness. *)
Definition truthy (v : JSON) : bool :=
  match v with
  | JNull => false
  | JBool b => b
  | JInt n => negb (n =? 0)%Z
  | JStr s => negb (String.eqb s EmptyString)
  | JList l => match l with [] => false | _ => true end
  | JObj o => match o with [] => false | _ => true end
  end.

(** [v == s] for a string literal [s]. *)
Definition eq_str (v : JSON) (s : string) : bool :=
  match v with JStr s' => String.eqb s' s | _ => false end.

(** [str(n)] for an [int]. *)
Definition str_int (n : Z) : string := NilZero.string_of_int (Z.to_int n).

Definition chr (n : nat) : ascii := ascii_of_nat n.
Definition NL : string := String (chr 10) EmptyString.
Definition DQ : string := String (chr 34) EmptyString.

(** ** [json.dumps] *)

Definition hex_digit (n : N) : ascii :=
  match n with
  | 0%N => "0" | 1%N => "1" | 2%N => "2" | 3%N => "3" | 4%N => "4"
  | 5%N => "5" | 6%N => "6" | 7%N => "7" | 8%N => "8" | 9%N => "9"
  | 10%N => "a" | 11%N => "b" | 12%N => "c" | 13%N => "d" | 14%N => "e"
  | _ => "f"
  end%char.

(** One character under [ensure_ascii=True]: the short escapes, the
    printable range [' '..'~'] unchanged, everything else as [\u00xx]
    (a [string] character is a code point below 256). *)
Definition escape_char (c : ascii) : string :=
  let n := N_of_ascii c in
  if (n =? 92)%N then "\\"
  else if (n =? 34)%N then "\" +:+ DQ
  else if (n =? 8)%N then "\b"
  else if (n =? 12)%N then "\f"
  else if (n =? 10)%N then "\n"
  else if (n =? 13)%N then "\r"
  else if (n =? 9)%N then "\t"
  else if ((32 <=? n) && (n <=? 126))%N then String c EmptyString
  else "\u00" +:+ String (hex_digit (n / 16)) (String (hex_digit (n mod 16)) EmptyString).

Fixpoint escape_chars (s : string) : string :=
  match s with
  | EmptyString => EmptyString
  | String c s' => escape_char c +:+ escape_chars s'
  end.

Definition encode_string (s : string) : string := DQ +:+ escape_chars s +:+ DQ.

Fixpoint join (sep : string) (l : list string) : string :=
  match l with
  | [] => EmptyString
  | [x] => x
  | x :: l' => x +:+ sep +:+ join sep l'
  end.

Fixpoint spaces (n : nat) : string :=
  match n with O => EmptyString | S n' => String (chr 32) (spaces n') end.

(** The line break that opens nesting level [lvl] when [indent] is given. *)
Definition newline_indent (indent : option nat) (lvl : nat) : string :=
  match indent with
  | None => EmptyString
  | Some w => NL +:+ spaces (w * lvl)
  end.

Definition item_separator (indent : option nat) (lvl : nat) : string :=
  match indent with
  | None => ", "
  | Some _ => "," +:+ newline_indent indent lvl
  end.

Fixpoint dumps_at (indent : option nat) (lvl : nat) (v : JSON) : string :=
  match v with
  | JNull => "null"
  | JBool true => "true"
  | JBool false => "false"
  | JInt n => str_int n
  | JStr s => encode_string s
  | JList [] => "[]"
  | JList l =>
      "[" +:+ newline_indent indent (S lvl)
          +:+ join (item_separator indent (S lvl)) (map (dumps_at indent (S lvl)) l)
          +:+ newline_indent indent lvl +:+ "]"
  | JObj [] => "{}"
  | JObj o =>
      "{" +:+ newline_indent indent (S lvl)
          +:+ join (item_separator indent (S lvl))
                (map (fun kv => encode_string (fst kv) +:+ ": "
                                  +:+ dumps_at indent (S lvl) (snd kv)) o)
          +:+ newline_indent indent lvl +:+ "}"
  end.

(** [json.dumps(v)] and [json.dumps(v, indent=w)], on the values of
    [JSON]: there is no float among them, and a character of a string is a
    code point below 256 (a character beyond that range, which Python
    writes as a longer escape, has no counterpart here). *)
Definition json_dumps (v : JSON) : string := dumps_at None 0 v.
Definition json_dumps_indent (w : nat) (v : JSON) : string := dumps_at (Some w) 0 v.

(** ** Models *)

Record JSONRPCRequest : Type := mkRequest {
  request_jsonrpc : string;
  request_id : JSON;                (* Optional[Any]; [JNull] is [None] *)
  request_method : string;
  request_params : option PyDict
}.

Record JSONRPCNotification : Type := mkNotification {
  notification_jsonrpc : string;
  notification_method : string;
  notification_params : option PyDict
}.

(** ** Effects, exceptions and logging *)

Inductive Level : Type := INFO | WARNING | ERROR.

(** What a run leaves behind, in order: log records, calls of the Telegram
    API, calls of a registered tool handler ([await handler(tool_params)]
    in [handle_tools_call]), and the teardown actions of the stream driver
    ([notification_task.cancel()], the completed [await notification_task],
    [session.close()] and [del sessions[...]]). *)
Inductive Effect : Type :=
| Log (lvl : Level) (msg : string)
| TelegramSend (chat_id : string) (text : JSON) (parse_mode : string)
| ToolHandlerCall (tool_name : string) (arguments : JSON)
| TaskCancel
| TaskJoin
| SessionClose (sid : string)
| RegistryDelete (sid : string).

(** The subclasses of [Exception] the handlers raise: FastAPI's
    [HTTPException], and any other one, kept as its [str(e)]. *)
Inductive PyExc : Type :=
| HTTPException (status_code : Z) (detail : string)
| PyError (str_e : string).

Inductive Outcome (A : Type) : Type :=
| Return (a : A)
| Raise (e : PyExc).
Arguments Return {A} a.
Arguments Raise {A} e.

(** A computation that may raise and that leaves effects. *)
Definition Py (A : Type) : Type := Outcome A * list Effect.

Definition ret {A} (a : A) : Py A := (Return a, []).
Definition raise {A} (e : PyExc) : Py A := (Raise e, []).
Definition tell (ef : Effect) : Py unit := (Return tt, [ef]).
Definition bind {A B} (m : Py A) (f : A -> Py B) : Py B :=
  match m with
  | (Return a, efs) => let '(o, efs') := f a in (o, efs ++ efs')
  | (Raise e, efs) => (Raise e, efs)
  end.

Notation "x <- m ;; k" := (bind m (fun x => k))
  (at level 100, m at next level, right associativity).
Notation "m ;;; k" := (bind m (fun _ => k))
  (at level 100, right associativity).

(** ** Session management *)

(** [asyncio.Queue(maxsize)]: a FIFO and its bound. *)
Record Queue (A : Type) : Type := mkQueue {
  items : list A;
  maxsize : Z
}.
Arguments mkQueue {A} items maxsize.
Arguments items {A} q.
Arguments maxsize {A} q.

Definition new_queue {A} (bound : Z) : Queue A := mkQueue [] bound.

Definition qsize {A} (q : Queue A) : Z := Z.of_nat (List.length (items q)).

Definition full {A} (q : Queue A) : bool :=
  if (maxsize q <=? 0)%Z then false else (maxsize q <=? qsize q)%Z.

(** [put_nowait]: [None] stands for [QueueFull]. *)
Definition put_nowait {A} (q : Queue A) (x : A) : option (Queue A) :=
  if full q then None else Some (mkQueue (items q ++ [x]) (maxsize q)).

(** [get_nowait]: [None] stands for an empty queue. *)
Definition get_nowait {A} (q : Queue A) : option (A * Queue A) :=
  match items q with
  | [] => None
  | x :: rest => Some (x, mkQueue rest (maxsize q))
  end.

Record SSESession : Type := mkSession {
  session_id : string;
  event_queue : Queue string;
  notification_queue : Queue JSONRPCNotification;
  initialized : bool;
  closed : bool
}.

(** [SSESession.__init__] *)
Definition new_session (sid : string) : SSESession :=
  mkSession sid (new_queue 100) (new_queue 100) false false.

Definition send_event (self : SSESession) (event : string)
  : bool * SSESession * list Effect :=
  if closed self then (false, self, [])
  else
    match put_nowait (event_queue self) event with
    | Some q =>
        (true,
         mkSession (session_id self) q (notification_queue self)
                   (initialized self) (closed self),
         [])
    | None =>
        (false, self,
         [Log WARNING ("Event queue full for session " +:+ session_id self)])
    end.

Definition send_notification (self : SSESession) (notification : JSONRPCNotification)
  : bool * SSESession * list Effect :=
  if closed self then (false, self, [])
  else
    match put_nowait (notification_queue self) notification with
    | Some q =>
        (true,
         mkSession (session_id self) (event_queue self) q
                   (initialized self) (closed self),
         [])
    | None =>
        (false, self,
         [Log WARNING ("Notification queue full for session " +:+ session_id self)])
    end.

Definition close (self : SSESession) : SSESession :=
  mkSession (session_id self) (event_queue self) (notification_queue self)
            (initialized self) true.

(** [session.event_queue.get()] and [session.notification_queue.get()], once
    an item is there: the readers are the stream driver and its relay task. *)
Definition take_event (session : SSESession) : option (string * SSESession) :=
  match get_nowait (event_queue session) with
  | Some (event, q) =>
      Some (event,
            mkSession (session_id session) q (notification_queue session)
                      (initialized session) (closed session))
  | None => None
  end.

Definition take_notification (session : SSESession)
  : option (JSONRPCNotification * SSESession) :=
  match get_nowait (notification_queue session) with
  | Some (notification, q) =>
      Some (notification,
            mkSession (session_id session) (event_queue session) q
                      (initialized session) (closed session))
  | None => None
  end.

(** ** Global state and the Telegram collaborator *)

Record Settings : Type := mkSettings {
  telegram_bot_token : string;
  telegram_chat_id : string;
  host : string;
  port : Z;
  debug : bool
}.

Record SentMessage : Type := mkSent {
  message_id : Z;
  sent_chat_id : Z;
  sent_text : option string
}.

(** How [await telegram_bot.send_message(...)] ends: with the message sent,
    or with an exception, kept as its [str(e)]. *)
Inductive SendOutcome : Type :=
| Sent (m : SentMessage)
| SendError (str_e : string).

(** The [Bot] object; the library and the network behind its
    [send_message(chat_id, text, parse_mode)] are its behaviour. *)
Record Bot : Type := mkBot {
  send_message : string -> JSON -> string -> SendOutcome
}.

Record Globals : Type := mkGlobals {
  settings : Settings;
  telegram_bot : option Bot
}.

(** ** Telegram integration *)

(** How the body of [initialize_telegram] ends: [Bot(token)] raises,
    [get_me()] raises after the bot object was stored, or both succeed. *)
Inductive ConnectOutcome : Type :=
| BotRaises (str_e : string)
| GetMeRaises (bot : Bot) (str_e : string)
| Connected (bot : Bot) (username : string).

Definition initialize_telegram (g : Globals) (c : ConnectOutcome)
  : bool * Globals * list Effect :=
  match c with
  | BotRaises e =>
      (false, g, [Log ERROR ("Failed to connect to Telegram: " +:+ e)])
  | GetMeRaises bot e =>
      (false, mkGlobals (settings g) (Some bot),
       [Log ERROR ("Failed to connect to Telegram: " +:+ e)])
  | Connected bot username =>
      (true, mkGlobals (settings g) (Some bot),
       [Log INFO ("Connected to Telegram bot: @" +:+ username)])
  end.

(** The startup half of [lifespan]: [None] is [sys.exit(1)], otherwise the
    globals the application serves requests with. *)
Definition lifespan_startup (g : Globals) (c : ConnectOutcome)
  : option Globals * list Effect :=
  let '(ok, g', efs) := initialize_telegram g c in
  if ok then
    (Some g',
     [Log INFO "Starting Telegram MCP Server..."] ++ efs ++
     [Log INFO ("Server starting on " +:+ host (settings g') +:+ ":"
                  +:+ str_int (port (settings g')))])
  else
    (None,
     [Log INFO "Starting Telegram MCP Server..."] ++ efs ++
     [Log ERROR "Failed to initialize Telegram bot"]).

(** ** MCP tool handlers *)

(** [type(v).__name__] *)
Definition type_name (v : JSON) : string :=
  match v with
  | JNull => "NoneType"
  | JBool _ => "bool"
  | JInt _ => "int"
  | JStr _ => "str"
  | JList _ => "list"
  | JObj _ => "dict"
  end.

Definition opt_str (o : option string) : JSON :=
  match o with Some s => JStr s | None => JNull end.

(** The [parse_mode] argument of the Telegram call. *)
Definition forwarded_parse_mode (params : PyDict) : string :=
  if eq_str (py_get params "parse_mode") "MarkdownV2" then "MarkdownV2" else "Markdown".

Definition handle_send_message (g : Globals) (params : JSON) : Py PyDict :=
  match telegram_bot g with
  | None => raise (HTTPException 500 "Telegram bot not initialized")
  | Some bot =>
      match params with
      | JObj d =>
          let message := py_get d "message" in
          if negb (truthy message) then
            raise (HTTPException 400 "Missing 'message' parameter")
          else
            let chat := telegram_chat_id (settings g) in
            let mode := forwarded_parse_mode d in
            tell (TelegramSend chat message mode) ;;;
            match send_message bot chat message mode with
            | Sent m =>
                ret [("success", JBool true);
                     ("message_id", JInt (message_id m));
                     ("chat_id", JInt (sent_chat_id m));
                     ("text", opt_str (sent_text m))]
            | SendError e =>
                tell (Log ERROR ("Failed to send message: " +:+ e)) ;;;
                raise (HTTPException 500 ("Failed to send message: " +:+ e))
            end
      | other =>
          (* [params.get] on a value that is no mapping: AttributeError *)
          raise (PyError ("'" +:+ type_name other +:+ "' object has no attribute 'get'"))
      end
  end.

(** ** MCP tools registry *)

Record Tool : Type := mkTool {
  handler : Globals -> JSON -> Py PyDict;
  schema : JSON
}.

Definition send_message_inputSchema : JSON :=
  JObj [("type", JStr "object");
        ("properties",
         JObj [("message",
                JObj [("type", JStr "string");
                      ("description", JStr "The message text to send")]);
               ("parse_mode",
                JObj [("type", JStr "string");
                      ("enum", JList [JStr "Markdown"; JStr "MarkdownV2"; JStr "HTML"]);
                      ("description", JStr "Text formatting mode");
                      ("default", JStr "Markdown")])]);
        ("required", JList [JStr "message"])].

Definition TOOLS : list (string * Tool) :=
  [("send_message",
    mkTool handle_send_message
           (JObj [("name", JStr "send_message");
                  ("description", JStr "Send a text message via Telegram");
                  ("inputSchema", send_message_inputSchema)]))].

Fixpoint tools_lookup (tools : list (string * Tool)) (name : string) : option Tool :=
  match tools with
  | [] => None
  | (k, t) :: rest => if String.eqb k name then Some t else tools_lookup rest name
  end.

(** ** MCP message handlers *)

Definition handle_initialize (params : PyDict) (session : SSESession)
  : PyDict * SSESession * list Effect :=
  ([("protocolVersion", JStr "2024-11-05");
    ("capabilities", JObj [("tools", JObj [])]);
    ("serverInfo", JObj [("name", JStr "telegram-mcp-server");
                         ("version", JStr "1.0.0")])],
   mkSession (session_id session) (event_queue session)
             (notification_queue session) true (closed session),
   [Log INFO ("Session " +:+ session_id session +:+ " initialized")]).

Definition handle_tools_list (params : PyDict) (session : SSESession) : PyDict :=
  [("tools", JList (map (fun kt => schema (snd kt)) TOOLS))].

Definition unknown_tool (shown : string) : PyExc :=
  HTTPException 400 ("Unknown tool: " +:+ shown).

Definition handle_tools_call (g : Globals) (params : PyDict) (session : SSESession)
  : Py PyDict :=
  let tool_name := py_get params "name" in
  let tool_params := py_get_default params "arguments" (JObj []) in
  match tool_name with
  (* [tool_name not in TOOLS] hashes the name: TypeError on a list or dict *)
  | JList _ => raise (PyError "unhashable type: 'list'")
  | JObj _ => raise (PyError "unhashable type: 'dict'")
  | JNull => raise (unknown_tool "None")
  | JBool b => raise (unknown_tool (if b then "True" else "False"))
  | JInt n => raise (unknown_tool (str_int n))
  | JStr name =>
      match tools_lookup TOOLS name with
      | None => raise (unknown_tool name)
      | Some tool =>
          tell (ToolHandlerCall name tool_params) ;;;
          result <- handler tool g tool_params ;;
          ret [("content",
                JList [JObj [("type", JStr "text");
                             ("text", JStr (json_dumps_indent 2 (JObj result)))]])]
      end
  end.

(** ** MCP request router *)

Definition success_envelope (id : JSON) (result : PyDict) : PyDict :=
  [("jsonrpc", JStr "2.0"); ("id", id); ("result", JObj result)].

Definition error_envelope (id : JSON) (code : Z) (message : string) : PyDict :=
  [("jsonrpc", JStr "2.0"); ("id", id);
   ("error", JObj [("code", JInt code); ("message", JStr message)])].

(** [request.params or {}] *)
Definition params_or_empty (request : JSONRPCRequest) : PyDict :=
  match request_params request with
  | Some d => d
  | None => []
  end.

(** The [try] body of [handle_mcp_request] up to the handler's result;
    [inl] is the early [return] of the method-not-found envelope. *)
Definition dispatch (g : Globals) (request : JSONRPCRequest) (session : SSESession)
  : Py (PyDict + PyDict) * SSESession :=
  let params := params_or_empty request in
  if String.eqb (request_method request) "initialize" then
    let '(result, session', efs) := handle_initialize params session in
    ((Return (inr result), efs), session')
  else if String.eqb (request_method request) "tools/list" then
    (ret (inr (handle_tools_list params session)), session)
  else if String.eqb (request_method request) "tools/call" then
    (result <- handle_tools_call g params session ;; ret (inr result), session)
  else
    (ret (inl (error_envelope (request_id request) (-32601)
                 ("Method not found: " +:+ request_method request))),
     session).

Definition handle_mcp_request (g : Globals) (request : JSONRPCRequest) (session : SSESession)
  : PyDict * SSESession * list Effect :=
  let '((outcome, efs), session') := dispatch g request session in
  match outcome with
  | Return (inl envelope) => (envelope, session', efs)
  | Return (inr result) => (success_envelope (request_id request) result, session', efs)
  | Raise (HTTPException status detail) =>
      (error_envelope (request_id request) status detail, session', efs)
  | Raise (PyError e) =>
      (error_envelope (request_id request) (-32603) ("Internal error: " +:+ e),
       session',
       efs ++ [Log ERROR ("Error handling MCP request " +:+ request_method request
                            +:+ ": " +:+ e)])
  end.

(** ** Shared state: session objects and the global registry *)

(** Session objects are shared between the registry, the call endpoint and
    the stream driver, so the world keeps them in a store by address;
    the global [sessions] dict maps a session id to the address of its
    object.  Functions on the world return [None] only on an address with
    no object behind it, which a Python reference never is. *)
Record World : Type := mkWorld {
  heap : gmap nat SSESession;
  sessions : gmap string nat
}.

Definition store (w : World) (a : nat) (s : SSESession) : World :=
  mkWorld (<[a := s]> (heap w)) (sessions w).

(** Every registered session has its object. *)
Definition well_formed (w : World) : Prop :=
  ∀ sid a, sessions w !! sid = Some a → is_Some (heap w !! a).

(** The shutdown half of [lifespan]: close every registered session. *)
Definition lifespan_shutdown (w : World) : World * list Effect :=
  (mkWorld
     (map_imap (fun a s =>
                  Some (if decide (a ∈ (map_to_list (sessions w)).*2)
                        then close s else s))
               (heap w))
     (sessions w),
   [Log INFO "Shutting down..."]).

(** ** Endpoints *)

(** The first lines of [sse_endpoint]: a new session under a fresh id. *)
Definition sse_endpoint (w : World) (uuid4 : string) : nat * World :=
  let a := fresh (dom (heap w)) in
  (a, mkWorld (<[a := new_session uuid4]> (heap w)) (<[uuid4 := a]> (sessions w))).

Inductive HTTPResult : Type :=
| Accepted                                   (* status: accepted *)
| HTTPError (status_code : Z) (detail : string).

(** A [message] frame of the stream. *)
Definition message_frame (data : string) : string :=
  "event: message" +:+ NL +:+ "data: " +:+ data +:+ NL +:+ NL.

(** The router suspends only in [await telegram_bot.send_message(...)],
    that is, exactly when a Telegram call is among its effects. *)
Definition suspends_in_send (efs : list Effect) : bool :=
  existsb (fun ef => match ef with TelegramSend _ _ _ => true | _ => false end) efs.

(** Nothing else runs during a suspension. *)
Definition undisturbed : World → World := fun w => w.

(** The world when the router has returned to the endpoint: the session
    as the router left it and, if the router was suspended in the Telegram
    call, what the other tasks ([env2]) made of the world meanwhile. *)
Definition after_router (env2 : World → World) (w1 : World) (a : nat)
    (session1 : SSESession) (efs1 : list Effect) : World :=
  if suspends_in_send efs1 then env2 (store w1 a session1) else store w1 a session1.

(** The endpoint is a coroutine: between its test of [session.closed] and
    its [send_event] it is suspended in [await request.json()] and, within
    the router, in the Telegram call, and other tasks (the stream's
    teardown, the shutdown, other calls) run then on the same session
    object.  [env1] and [env2] are what they do to the world during these
    two suspensions; the endpoint keeps its reference [a] to the session
    object and reads the object again after each of them.  [body] is how
    reading and validating the request body ends: with the
    [JSONRPCRequest], or with an exception, kept as its [str(e)]. *)
Definition message_endpoint (g : Globals) (env1 env2 : World → World) (w : World)
    (sessionId : string) (body : string + JSONRPCRequest)
  : option (HTTPResult * World * list Effect) :=
  match sessions w !! sessionId with
  | None => Some (HTTPError 400 "Invalid session ID", w, [])
  | Some a =>
      session ← heap w !! a;
      if closed session then Some (HTTPError 400 "Session closed", w, [])
      else
        (* [await request.json()] *)
        let w1 := env1 w in
        match body with
        | inl e =>
            Some (HTTPError 500 e, w1, [Log ERROR ("Error processing message: " +:+ e)])
        | inr mcp_request =>
            session0 ← heap w1 !! a;
            let '(response, session1, efs1) := handle_mcp_request g mcp_request session0 in
            let w2 := after_router env2 w1 a session1 efs1 in
            if truthy (JObj response) then
              let response_data := json_dumps (JObj response) in
              let event := message_frame response_data in
              session2 ← heap w2 !! a;
              let '(_, session3, efs2) := send_event session2 event in
              Some (Accepted, store w2 a session3, efs1 ++ efs2)
            else
              Some (Accepted, w2, efs1)
        end
  end.

(** ** SSE event stream *)

(** What can be raised into the generator at a suspension point.  Of these
    [TimeoutError] and [OtherException] are subclasses of [Exception];
    [CancelledError] and [GeneratorExit] derive from [BaseException] only
    and pass every [except Exception]. *)
Inductive Thrown : Type :=
| TimeoutError
| CancelledError
| GeneratorExit
| OtherException (str_e : string).

Definition is_Exception (t : Thrown) : bool :=
  match t with
  | TimeoutError | OtherException _ => true
  | CancelledError | GeneratorExit => false
  end.

(** [str(e)] *)
Definition str_thrown (t : Thrown) : string :=
  match t with OtherException e => e | _ => EmptyString end.

(** How a suspended generator is woken: the awaited operation completes or
    the consumer asks for the next frame, or an exception is raised at the
    suspension point (a timeout of [wait_for], a cancellation, [aclose()]). *)
Inductive Signal : Type :=
| Resume
| Throw (t : Thrown).

(** Where [sse_event_stream] is suspended. *)
Inductive Control : Type :=
| NotStarted
| AtEndpointYield        (* [yield] of the endpoint event *)
| AtEventWait            (* [await asyncio.wait_for(session.event_queue.get(), 15.0)] *)
| AtEventYield           (* [yield event], inside the loop's [try] *)
| AtKeepAliveYield       (* [yield] of the keep-alive, inside [except TimeoutError] *)
| AtTaskJoin             (* [await notification_task] *)
| Finished               (* the generator returned *)
| Propagated (t : Thrown). (* an exception left the generator *)

Inductive TaskState : Type :=
| TaskRunning
| TaskCancelling         (* [cancel()] was called *)
| TaskJoined.            (* [await notification_task] completed *)

Record Stream : Type := mkStream {
  stream_session : nat;                     (* the [session] argument *)
  base_url : string;
  control : Control;
  notification_task : option TaskState      (* [None] before [create_task] *)
}.

Definition at_control (st : Stream) (c : Control) : Stream :=
  mkStream (stream_session st) (base_url st) c (notification_task st).

Definition with_task (st : Stream) (t : TaskState) : Stream :=
  mkStream (stream_session st) (base_url st) (control st) (Some t).

Definition endpoint_frame (url sid : string) : string :=
  "event: endpoint" +:+ NL +:+ "data: " +:+ url +:+ "/message?sessionId=" +:+ sid
    +:+ NL +:+ NL.

Definition keep_alive_frame : string := ": keep-alive" +:+ NL +:+ NL.

(** One resumption of the generator: the new state, the frame it yields
    (none when it suspends in an [await] or ends) and the effects. *)
Definition Step : Type := option (Stream * World * option string * list Effect).

(** The [finally] block. *)
Definition finally_block (st : Stream) (w : World) (exit : Control) (efs : list Effect)
  : Step :=
  session ← heap w !! stream_session st;
  let sid := session_id session in
  let w1 := store w (stream_session st) (close session) in
  match sessions w1 !! sid with
  | Some _ =>
      Some (at_control st exit, mkWorld (heap w1) (delete sid (sessions w1)), None,
            efs ++ [SessionClose sid; RegistryDelete sid])
  | None =>
      Some (at_control st exit, w1, None, efs ++ [SessionClose sid])
  end.

(** An exception reaching the outer [try]: [except Exception] logs it and
    the generator returns; anything else propagates.  Both run [finally]. *)
Definition outer_except (st : Stream) (w : World) (t : Thrown) : Step :=
  if is_Exception t then
    finally_block st w Finished [Log ERROR ("SSE stream error: " +:+ str_thrown t)]
  else
    finally_block st w (Propagated t) [].

(** The clean-up after the main loop, up to [await notification_task]. *)
Definition clean_up (st : Stream) (w : World) (efs : list Effect) : Step :=
  Some (at_control (with_task st TaskCancelling) AtTaskJoin, w, None, efs ++ [TaskCancel]).

(** The test of [while not session.closed]. *)
Definition loop_test (st : Stream) (w : World) : Step :=
  session ← heap w !! stream_session st;
  if closed session then clean_up st w []
  else Some (at_control st AtEventWait, w, None, []).

Definition yield_keep_alive (st : Stream) (w : World) : Step :=
  Some (at_control st AtKeepAliveYield, w, Some keep_alive_frame, []).

(** The [except] clauses of the loop's [try], then the outer ones. *)
Definition loop_except (st : Stream) (w : World) (t : Thrown) : Step :=
  match t with
  | TimeoutError => yield_keep_alive st w
  | OtherException e => clean_up st w [Log ERROR ("Error in SSE stream: " +:+ e)]
  | CancelledError | GeneratorExit => outer_except st w t
  end.

Definition sse_event_stream (sig : Signal) (st : Stream) (w : World) : Step :=
  match control st, sig with
  | NotStarted, Resume =>
      session ← heap w !! stream_session st;
      Some (at_control st AtEndpointYield, w,
            Some (endpoint_frame (base_url st) (session_id session)), [])
  | NotStarted, Throw t =>
      (* closed before its first resumption: the body never runs *)
      Some (at_control st (Propagated t), w, None, [])
  | AtEndpointYield, Resume => loop_test (with_task st TaskRunning) w
  | AtEndpointYield, Throw t => outer_except st w t
  | AtEventWait, Resume =>
      session ← heap w !! stream_session st;
      match take_event session with
      | Some (event, session1) =>
          Some (at_control st AtEventYield, store w (stream_session st) session1,
                Some event, [])
      | None => Some (st, w, None, [])        (* the [get()] is still pending *)
      end
  | AtEventWait, Throw t => loop_except st w t
  | AtEventYield, Resume => loop_test st w
  | AtEventYield, Throw t => loop_except st w t
  | AtKeepAliveYield, Resume => loop_test st w
  | AtKeepAliveYield, Throw t => outer_except st w t
  | AtTaskJoin, Resume => finally_block (with_task st TaskJoined) w Finished [TaskJoin]
  | AtTaskJoin, Throw CancelledError =>
      finally_block (with_task st TaskJoined) w Finished [TaskJoin]
  | AtTaskJoin, Throw t => outer_except st w t
  | Finished, _ => Some (st, w, None, [])
  | Propagated _, _ => Some (st, w, None, [])
  end.

(** The generator has ended. *)
Definition ended (c : Control) : bool :=
  match c with Finished | Propagated _ => true | _ => false end.

(** A run of the generator against a script of signals; between two
    signals the rest of the process may change the world ([env]). *)
Fixpoint run_stream (script : list (Signal * (World -> World))) (st : Stream) (w : World)
  : option (Stream * World * list string * list Effect) :=
  match script with
  | [] => Some (st, w, [], [])
  | (sig, env) :: rest =>
      '(st1, w1, frame, efs1) ← sse_event_stream sig st (env w);
      '(st2, w2, frames, efs2) ← run_stream rest st1 w1;
      Some (st2, w2, match frame with Some f => f :: frames | None => frames end,
            efs1 ++ efs2)
  end.

(** ** The notification relay task *)

Section Relay.
(** [notification.model_dump_json()], pydantic's serialiser. *)
Variable model_dump_json : JSONRPCNotification -> string.

(** One turn of the loop of [handle_notifications]; the boolean tells
    whether the loop goes on. *)
Definition handle_notifications (sig : Signal) (session : SSESession)
  : bool * SSESession * list Effect :=
  if closed session then (false, session, [])
  else
    match sig with
    | Resume =>
        match take_notification session with
        | Some (notification, session1) =>
            let event_data := model_dump_json notification in
            let '(_, session2, efs) := send_event session1 (message_frame event_data) in
            (true, session2, efs)
        | None => (true, session, [])       (* the [get()] is still pending *)
        end
    | Throw TimeoutError => (true, session, [])
    | Throw (OtherException e) =>
        (false, session, [Log ERROR ("Error handling notification: " +:+ e)])
    | Throw _ => (false, session, [])       (* cancelled *)
    end.
End Relay.

(** ** Validation against an advertised [inputSchema] *)

(** Equality of JSON values, as [enum] compares them. *)
Fixpoint json_eqb (x y : JSON) {struct x} : bool :=
  match x, y with
  | JNull, JNull => true
  | JBool a, JBool b => Bool.eqb a b
  | JInt a, JInt b => (a =? b)%Z
  | JStr a, JStr b => String.eqb a b
  | JList xs, JList ys =>
      (fix all2 (xs ys : list JSON) {struct xs} : bool :=
         match xs, ys with
         | [], [] => true
         | x' :: xs', y' :: ys' => json_eqb x' y' && all2 xs' ys'
         | _, _ => false
         end) xs ys
  | JObj xs, JObj ys =>
      (fix all2 (xs ys : PyDict) {struct xs} : bool :=
         match xs, ys with
         | [], [] => true
         | (k, x') :: xs', (k', y') :: ys' =>
             String.eqb k k' && json_eqb x' y' && all2 xs' ys'
         | _, _ => false
         end) xs ys
  | _, _ => false
  end.

(** The keyword [type]. *)
Definition has_type (t : JSON) (v : JSON) : bool :=
  match t, v with
  | JStr "object", JObj _ => true
  | JStr "array", JList _ => true
  | JStr "string", JStr _ => true
  | JStr "integer", JInt _ => true
  | JStr "number", JInt _ => true
  | JStr "boolean", JBool _ => true
  | JStr "null", JNull => true
  | JStr _, _ => false
  | _, _ => true
  end.

(** The keyword [required]: on an object, every listed key is present. *)
Definition has_required (names : JSON) (v : JSON) : bool :=
  match names, v with
  | JList ns, JObj d =>
      forallb (fun n => match n with
                        | JStr k => match dict_get d k with Some _ => true | None => false end
                        | _ => true
                        end) ns
  | _, _ => true
  end.

(** The keyword [enum]. *)
Definition in_enum (values : JSON) (v : JSON) : bool :=
  match values with
  | JList vs => existsb (fun x => json_eqb x v) vs
  | _ => true
  end.

(** A JSON-Schema validator for the keywords the registry uses: [type],
    [properties], [required] and [enum]; annotations ([description],
    [default]) constrain nothing, and properties that are not listed are
    allowed. *)
Fixpoint validate (schema : JSON) (v : JSON) {struct schema} : bool :=
  match schema with
  | JObj keywords =>
      (fix each (kws : PyDict) : bool :=
         match kws with
         | [] => true
         | (kw, arg) :: rest =>
             (if String.eqb kw "type" then has_type arg v
              else if String.eqb kw "required" then has_required arg v
              else if String.eqb kw "enum" then in_enum arg v
              else if String.eqb kw "properties" then
                match arg, v with
                | JObj props, JObj d =>
                    (fix members (ps : PyDict) : bool :=
                       match ps with
                       | [] => true
                       | (k, sub) :: ps' =>
                           match dict_get d k with
                           | Some x => validate sub x
                           | None => true
                           end && members ps'
                       end) props
                | _, _ => true
                end
              else true)
             && each rest
         end) keywords
  | _ => true
  end.

(** The [inputSchema] that [tools/list] returns for a tool. *)
Definition listed_inputSchema (name : string) : option JSON :=
  match handle_tools_list [] (new_session EmptyString) with
  | [(_, JList schemas)] =>
      match List.filter (fun s => match s with
                                  | JObj d => eq_str (py_get d "name") name
                                  | _ => false
                                  end) schemas with
      | JObj d :: _ => dict_get d "inputSchema"
      | _ => None
      end
  | _ => None
  end.

(** ** Sequences of operations on a session *)

Inductive Enqueue : Type :=
| EnqueueEvent (event : string)
| EnqueueNotification (notification : JSONRPCNotification).

Definition enqueue (op : Enqueue) (s : SSESession) : bool * SSESession * list Effect :=
  match op with
  | EnqueueEvent event => send_event s event
  | EnqueueNotification notification => send_notification s notification
  end.

(** The calls of [ops] in order: their results, the session after the last
    one and the effects of all. *)
Fixpoint enqueue_all (ops : list Enqueue) (s : SSESession)
  : list bool * SSESession * list Effect :=
  match ops with
  | [] => ([], s, [])
  | op :: rest =>
      let '(r, s1, efs1) := enqueue op s in
      let '(rs, s2, efs2) := enqueue_all rest s1 in
      (r :: rs, s2, efs1 ++ efs2)
  end.

(** Everything the program does to a session object: the two enqueue
    methods, [close], the reads of the two queues, and a request routed on
    the session (which is how [handle_initialize] reaches it). *)
Inductive SessionOp : Type :=
| OpEnqueue (op : Enqueue)
| OpClose
| OpTakeEvent
| OpTakeNotification
| OpRequest (g : Globals) (request : JSONRPCRequest).

Definition is_close (op : SessionOp) : bool :=
  match op with OpClose => true | _ => false end.

Definition session_op (op : SessionOp) (s : SSESession) : SSESession :=
  match op with
  | OpEnqueue e => (enqueue e s).1.2
  | OpClose => close s
  | OpTakeEvent => match take_event s with Some (_, s') => s' | None => s end
  | OpTakeNotification => match take_notification s with Some (_, s') => s' | None => s end
  | OpRequest g request => (handle_mcp_request g request s).1.2
  end.

Definition session_ops (ops : list SessionOp) (s : SSESession) : SSESession :=
  fold_left (fun s op => session_op op s) ops s.

(** ** Observations the statements use *)

(** A hundred events sent to a new session are all taken, and fill it. *)
Definition filled_session (sid : string) : SSESession :=
  (enqueue_all (map EnqueueEvent (repeat "tick" 100)) (new_session sid)).1.2.

(** The error code of an envelope, when it has one. *)
Definition error_code (envelope : PyDict) : option Z :=
  match dict_get envelope "error" with
  | Some (JObj e) => match dict_get e "code" with Some (JInt c) => Some c | _ => None end
  | _ => None
  end.

(** The error message of an envelope, when it has one. *)
Definition error_message (envelope : PyDict) : option string :=
  match dict_get envelope "error" with
  | Some (JObj e) => match dict_get e "message" with Some (JStr m) => Some m | _ => None end
  | _ => None
  end.

(** [m in s] for strings. *)
Definition contains (s m : string) : Prop := ∃ pre post, s = pre +:+ m +:+ post.

(** The effects of invoking a tool: the handler call and what it sends. *)
Definition is_tool_effect (ef : Effect) : bool :=
  match ef with
  | ToolHandlerCall _ _ | TelegramSend _ _ _ => true
  | _ => false
  end.

(** [name] can be hashed, so that [name not in TOOLS] has an answer. *)
Definition hashable (name : JSON) : bool :=
  match name with JList _ | JObj _ => false | _ => true end.

(** [name in TOOLS] *)
Definition registered (name : JSON) : bool :=
  match name with
  | JStr s => match tools_lookup TOOLS s with Some _ => true | None => false end
  | _ => false
  end.

(** The handler lets the arguments through to the Telegram call. *)
Definition accepts (g : Globals) (arguments : JSON) : bool :=
  match handle_send_message g arguments with
  | (_, TelegramSend _ _ _ :: _) => true
  | _ => false
  end.

(** How often [session.close()] ran in the teardown. *)
Definition teardowns (efs : list Effect) : nat :=
  List.length (List.filter (fun ef => match ef with SessionClose _ => true | _ => false end) efs).

(** How often [notification_task.cancel()] ran. *)
Definition cancels (efs : list Effect) : nat :=
  List.length (List.filter (fun ef => match ef with TaskCancel => true | _ => false end) efs).

(** The queue-full warnings among the effects. *)
Definition warnings (efs : list Effect) : nat :=
  List.length (List.filter (fun ef => match ef with Log WARNING _ => true | _ => false end) efs).

(** The Telegram calls among the effects. *)
Definition telegram_calls (efs : list Effect) : list Effect :=
  List.filter (fun ef => match ef with TelegramSend _ _ _ => true | _ => false end) efs.

(** A signal during which the rest of the process leaves the world alone. *)
Definition quiet (sig : Signal) : Signal * (World → World) := (sig, fun w => w).

(** [n] turns of the main loop in which the awaited [get()] completes and
    the consumer then asks for the next frame. *)
Fixpoint delivery_script (n : nat) : list (Signal * (World → World)) :=
  match n with
  | O => []
  | S n' => quiet Resume :: quiet Resume :: delivery_script n'
  end.

(** [n] turns of the main loop in which [wait_for] times out and the
    consumer then asks for the next frame. *)
Fixpoint idle_script (n : nat) : list (Signal * (World → World)) :=
  match n with
  | O => []
  | S n' => quiet (Throw TimeoutError) :: quiet Resume :: idle_script n'
  end.

(** The generator has not been resumed yet. *)
Definition not_started (c : Control) : bool :=
  match c with NotStarted => true | _ => false end.

(** [str(v)] as an f-string shows a value that can be hashed: [None], a
    boolean, an integer or a string (lists and dicts are not shown by the
    code, which fails on them first). *)
Definition shown_name (v : JSON) : string :=
  match v with
  | JNull => "None"
  | JBool true => "True"
  | JBool false => "False"
  | JInt n => str_int n
  | JStr s => s
  | JList _ | JObj _ => EmptyString
  end.

(** * Properties *)

(** ** Sessions and their queues *)

Lemma send_event_closed (s : SSESession) (event : string) :
  closed s = true → send_event s event = (false, s, []).
Proof. intros Hc. unfold send_event. by rewrite Hc. Qed.

Lemma send_notification_closed (s : SSESession) (n : JSONRPCNotification) :
  closed s = true → send_notification s n = (false, s, []).
Proof. intros Hc. unfold send_notification. by rewrite Hc. Qed.

Lemma send_event_keeps_closed (s : SSESession) (event : string) :
  closed (send_event s event).1.2 = closed s.
Proof.
  unfold send_event. destruct (closed s) eqn:Hc; [done|].
  destruct (put_nowait _ _); simpl; done.
Qed.

Lemma send_notification_keeps_closed (s : SSESession) (n : JSONRPCNotification) :
  closed (send_notification s n).1.2 = closed s.
Proof.
  unfold send_notification. destruct (closed s) eqn:Hc; [done|].
  destruct (put_nowait _ _); simpl; done.
Qed.

Lemma take_event_keeps_closed (s s' : SSESession) (event : string) :
  take_event s = Some (event, s') → closed s' = closed s.
Proof.
  unfold take_event. destruct (get_nowait _) as [[e q]|]; [|done].
  intros [= _ <-]. done.
Qed.

Lemma take_notification_keeps_closed (s s' : SSESession) (n : JSONRPCNotification) :
  take_notification s = Some (n, s') → closed s' = closed s.
Proof.
  unfold take_notification. destruct (get_nowait _) as [[e q]|]; [|done].
  intros [= _ <-]. done.
Qed.

Lemma dispatch_keeps_closed (g : Globals) (request : JSONRPCRequest) (s : SSESession) :
  closed (dispatch g request s).2 = closed s.
Proof.
  unfold dispatch.
  repeat (match goal with |- context [if ?b then _ else _] => destruct b end); done.
Qed.

Lemma handle_mcp_request_keeps_closed (g : Globals) (request : JSONRPCRequest)
    (s : SSESession) :
  closed (handle_mcp_request g request s).1.2 = closed s.
Proof.
  unfold handle_mcp_request.
  pose proof (dispatch_keeps_closed g request s) as H.
  destruct (dispatch g request s) as [[o efs] s']. simpl in H.
  destruct o as [[envelope|result]|[status detail|e]]; simpl; done.
Qed.

Lemma session_op_closed (op : SessionOp) (s : SSESession) :
  closed (session_op op s) = closed s || is_close op.
Proof.
  destruct op as [[event|n]| | | |g request]; simpl.
  - rewrite send_event_keeps_closed. by rewrite orb_false_r.
  - rewrite send_notification_keeps_closed. by rewrite orb_false_r.
  - by rewrite orb_true_r.
  - destruct (take_event s) as [[e s']|] eqn:Ht; rewrite orb_false_r; [|done].
    by eapply take_event_keeps_closed.
  - destruct (take_notification s) as [[e s']|] eqn:Ht; rewrite orb_false_r; [|done].
    by eapply take_notification_keeps_closed.
  - rewrite handle_mcp_request_keeps_closed. by rewrite orb_false_r.
Qed.

Lemma session_ops_closed (ops : list SessionOp) (s : SSESession) :
  closed (session_ops ops s) = closed s || existsb is_close ops.
Proof.
  revert s. induction ops as [|op ops IH]; intros s; simpl.
  - by rewrite orb_false_r.
  - unfold session_ops in *. simpl. rewrite IH, session_op_closed.
    by rewrite orb_assoc.
Qed.

Lemma enqueue_all_closed (ops : list Enqueue) (s : SSESession) :
  closed s = true →
  enqueue_all ops s = (repeat false (List.length ops), s, []).
Proof.
  intros Hc. induction ops as [|op ops IH]; simpl; [done|].
  destruct op as [event|n]; simpl.
  - rewrite (send_event_closed _ _ Hc), IH. done.
  - rewrite (send_notification_closed _ _ Hc), IH. done.
Qed.

(** C5: on a session that has been closed, every sequence of [send_event]
    and [send_notification] calls returns [False] each time and leaves the
    session, both queues included, as it was (nothing is logged either);
    and [closed], which [close] sets, stays set under every sequence of
    operations on the session. *)
Theorem C5_closed_session_rejects_enqueues
    (s : SSESession) (ops : list Enqueue) (later : list SessionOp) :
  closed s = true →
  enqueue_all ops s = (repeat false (List.length ops), s, [])
  ∧ event_queue (enqueue_all ops s).1.2 = event_queue s
  ∧ notification_queue (enqueue_all ops s).1.2 = notification_queue s
  ∧ closed (session_ops later s) = true
  ∧ (∀ s0 : SSESession, closed (close s0) = true
       ∧ ∀ ops0, closed (session_ops ops0 s0) = closed s0 || existsb is_close ops0).
Proof.
  intros Hc. rewrite (enqueue_all_closed ops s Hc). simpl.
  repeat split; try done.
  - by rewrite session_ops_closed, Hc.
  - intros ops0. apply session_ops_closed.
Qed.

Lemma C5_closed_session_rejects_enqueues_witness :
  let s := close (new_session "s1") in
  let n := mkNotification "2.0" "ping" None in
  closed s = true
  ∧ enqueue_all [EnqueueEvent "e1"; EnqueueNotification n; EnqueueEvent "e2"] s
    = ([false; false; false], s, []).
Proof.
  split; [reflexivity|].
  apply (C5_closed_session_rejects_enqueues
           (close (new_session "s1"))
           [EnqueueEvent "e1"; EnqueueNotification (mkNotification "2.0" "ping" None);
            EnqueueEvent "e2"]
           [OpTakeEvent]).
  reflexivity.
Defined.

Lemma full_at_capacity {A} (q : Queue A) :
  maxsize q = 100%Z → List.length (items q) = 100 → full q = true.
Proof.
  intros Hm Hl. unfold full, qsize. rewrite Hm, Hl. reflexivity.
Qed.

(** C6: on an open session whose raw-event queue (bound 100) holds 100
    items, [send_event] returns [False] at once -- [put_nowait] never
    waits --, logs the queue-full warning and leaves the session, its
    queues included, unchanged. *)
Theorem C6_full_event_queue_rejects (s : SSESession) (event : string) :
  closed s = false →
  maxsize (event_queue s) = 100%Z →
  List.length (items (event_queue s)) = 100 →
  send_event s event
  = (false, s, [Log WARNING ("Event queue full for session " +:+ session_id s)]).
Proof.
  intros Hc Hm Hl. unfold send_event, put_nowait.
  rewrite Hc, (full_at_capacity _ Hm Hl). reflexivity.
Qed.

Lemma first_hundred_events_accepted :
  (enqueue_all (map EnqueueEvent (repeat "tick" 100)) (new_session "s1")).1.1
  = repeat true 100.
Proof. vm_compute. reflexivity. Qed.

Lemma C6_full_event_queue_rejects_witness :
  closed (filled_session "s1") = false
  ∧ maxsize (event_queue (filled_session "s1")) = 100%Z
  ∧ List.length (items (event_queue (filled_session "s1"))) = 100
  ∧ send_event (filled_session "s1") "late"
    = (false, filled_session "s1",
       [Log WARNING ("Event queue full for session " +:+ session_id (filled_session "s1"))]).
Proof.
  split; [vm_compute; reflexivity|].
  split; [vm_compute; reflexivity|].
  split; [vm_compute; reflexivity|].
  apply (C6_full_event_queue_rejects (filled_session "s1") "late");
    vm_compute; reflexivity.
Defined.

(** ** The request router *)

Lemma append_empty_r (s : string) : s +:+ EmptyString = s.
Proof.
  induction s as [|c s IH]; [done|].
  change (String c (s +:+ EmptyString) = String c s). by rewrite IH.
Qed.

Lemma dispatch_unknown_method (g : Globals) (request : JSONRPCRequest) (session : SSESession) :
  request_method request ≠ "initialize" →
  request_method request ≠ "tools/list" →
  request_method request ≠ "tools/call" →
  dispatch g request session
  = (ret (inl (error_envelope (request_id request) (-32601)
                 ("Method not found: " +:+ request_method request))),
     session).
Proof.
  intros H1 H2 H3. unfold dispatch.
  apply String.eqb_neq in H1, H2, H3. by rewrite H1, H2, H3.
Qed.

(** C4: a request whose method is none of [initialize], [tools/list] and
    [tools/call] is answered by an envelope with [error.code] -32601 and an
    [error.message] that contains the method name; producing it invokes no
    handler: there is no effect at all and the session is untouched. *)
Theorem C4_unknown_method_not_found
    (g : Globals) (request : JSONRPCRequest) (session : SSESession) :
  request_method request ≠ "initialize" →
  request_method request ≠ "tools/list" →
  request_method request ≠ "tools/call" →
  ∃ envelope message,
    handle_mcp_request g request session = (envelope, session, [])
    ∧ error_code envelope = Some (-32601)%Z
    ∧ error_message envelope = Some message
    ∧ contains message (request_method request)
    ∧ dict_get envelope "result" = None
    ∧ dict_get envelope "id" = Some (request_id request)
    ∧ existsb is_tool_effect (handle_mcp_request g request session).2 = false.
Proof.
  intros H1 H2 H3.
  exists (error_envelope (request_id request) (-32601)
            ("Method not found: " +:+ request_method request)).
  exists ("Method not found: " +:+ request_method request).
  unfold handle_mcp_request.
  rewrite (dispatch_unknown_method g request session H1 H2 H3). simpl.
  repeat split; try reflexivity.
  exists "Method not found: ", EmptyString.
  by rewrite append_empty_r.
Qed.

Lemma C4_unknown_method_not_found_witness :
  ∃ envelope message,
    handle_mcp_request (mkGlobals (mkSettings "token" "42" "127.0.0.1" 8008 false) None)
                       (mkRequest "2.0" (JInt 7) "resources/list" None)
                       (new_session "s1")
    = (envelope, new_session "s1", [])
    ∧ error_code envelope = Some (-32601)%Z
    ∧ error_message envelope = Some message
    ∧ contains message "resources/list".
Proof.
  destruct (C4_unknown_method_not_found
              (mkGlobals (mkSettings "token" "42" "127.0.0.1" 8008 false) None)
              (mkRequest "2.0" (JInt 7) "resources/list" None)
              (new_session "s1"))
    as (envelope & message & H1 & H2 & H3 & H4 & _);
    [simpl; discriminate | simpl; discriminate | simpl; discriminate |].
  exists envelope, message. repeat split; assumption.
Defined.

(** The envelope is one of the two shapes the router builds. *)
Lemma handle_mcp_request_shape (g : Globals) (request : JSONRPCRequest) (session : SSESession) :
  (∃ result, (handle_mcp_request g request session).1.1
             = success_envelope (request_id request) result)
  ∨ (∃ code message, (handle_mcp_request g request session).1.1
                     = error_envelope (request_id request) code message).
Proof.
  unfold handle_mcp_request, dispatch.
  destruct (String.eqb (request_method request) "initialize"); simpl; [left; eauto|].
  destruct (String.eqb (request_method request) "tools/list"); simpl; [left; eauto|].
  destruct (String.eqb (request_method request) "tools/call"); simpl; [|right; eauto].
  destruct (handle_tools_call g (params_or_empty request) session)
    as [[result|[status detail|e]] efs]; simpl; [left|right|right]; eauto.
Qed.

(** C7: for every request, a null or absent id included, the router
    returns an envelope (no exception leaves it, and the envelope is not
    empty); the envelope has the keys [jsonrpc], [id] and exactly one of
    [result] and [error], an error being an object of a code and a message;
    and its [id] is the request's. *)
Theorem C7_router_always_returns_one_envelope
    (g : Globals) (request : JSONRPCRequest) (session : SSESession) :
  let envelope := (handle_mcp_request g request session).1.1 in
  truthy (JObj envelope) = true
  ∧ dict_get envelope "jsonrpc" = Some (JStr "2.0")
  ∧ dict_get envelope "id" = Some (request_id request)
  ∧ ((envelope.*1 = ["jsonrpc"; "id"; "result"]
      ∧ is_Some (dict_get envelope "result") ∧ dict_get envelope "error" = None)
     ∨ (envelope.*1 = ["jsonrpc"; "id"; "error"]
        ∧ dict_get envelope "result" = None
        ∧ ∃ code message,
            dict_get envelope "error"
            = Some (JObj [("code", JInt code); ("message", JStr message)]))).
Proof.
  intros envelope. subst envelope.
  destruct (handle_mcp_request_shape g request session)
    as [[result ->]|(code & message & ->)]; simpl.
  - repeat split; try done. left. repeat split; eauto.
  - repeat split; try done. right. repeat split; eauto.
Qed.

(** The four branches on small requests: a result, -32601, an application
    error with its own code, and -32603. *)
Example router_success :
  (handle_mcp_request (mkGlobals (mkSettings "token" "42" "127.0.0.1" 8008 false) None)
                      (mkRequest "2.0" JNull "tools/list" None) (new_session "s1")).1.1
  = success_envelope JNull
      [("tools", JList [JObj [("name", JStr "send_message");
                              ("description", JStr "Send a text message via Telegram");
                              ("inputSchema", send_message_inputSchema)]])].
Proof. reflexivity. Qed.

Example router_method_not_found :
  (handle_mcp_request (mkGlobals (mkSettings "token" "42" "127.0.0.1" 8008 false) None)
                      (mkRequest "2.0" (JStr "r-1") "ping" None) (new_session "s1")).1.1
  = error_envelope (JStr "r-1") (-32601) "Method not found: ping".
Proof. reflexivity. Qed.

Example router_application_error :
  (handle_mcp_request (mkGlobals (mkSettings "token" "42" "127.0.0.1" 8008 false) None)
                      (mkRequest "2.0" (JInt 3) "tools/call" (Some [("name", JStr "nope")]))
                      (new_session "s1")).1.1
  = error_envelope (JInt 3) 400 "Unknown tool: nope".
Proof. reflexivity. Qed.

Example router_internal_error :
  (handle_mcp_request
     (mkGlobals (mkSettings "token" "42" "127.0.0.1" 8008 false)
                (Some (mkBot (fun _ _ _ => Sent (mkSent 1 42 None)))))
     (mkRequest "2.0" (JInt 4) "tools/call"
                (Some [("name", JStr "send_message"); ("arguments", JStr "hi")]))
     (new_session "s1")).1.1
  = error_envelope (JInt 4) (-32603) "Internal error: 'str' object has no attribute 'get'".
Proof. reflexivity. Qed.

(** ** The send tool *)

Lemma handle_send_message_no_bot (g : Globals) (params : JSON) :
  telegram_bot g = None →
  handle_send_message g params
  = raise (HTTPException 500 "Telegram bot not initialized").
Proof. intros H. unfold handle_send_message. by rewrite H. Qed.

Lemma handle_send_message_falsy (g : Globals) (bot : Bot) (d : PyDict) :
  telegram_bot g = Some bot →
  truthy (py_get d "message") = false →
  handle_send_message g (JObj d)
  = raise (HTTPException 400 "Missing 'message' parameter").
Proof. intros Hb Hm. unfold handle_send_message. by rewrite Hb, Hm. Qed.

Lemma handle_send_message_truthy (g : Globals) (bot : Bot) (d : PyDict) :
  telegram_bot g = Some bot →
  truthy (py_get d "message") = true →
  let chat := telegram_chat_id (settings g) in
  let message := py_get d "message" in
  let mode := forwarded_parse_mode d in
  handle_send_message g (JObj d)
  = match send_message bot chat message mode with
    | Sent m =>
        (Return [("success", JBool true); ("message_id", JInt (message_id m));
                 ("chat_id", JInt (sent_chat_id m)); ("text", opt_str (sent_text m))],
         [TelegramSend chat message mode])
    | SendError e =>
        (Raise (HTTPException 500 ("Failed to send message: " +:+ e)),
         [TelegramSend chat message mode; Log ERROR ("Failed to send message: " +:+ e)])
    end.
Proof.
  intros Hb Hm. unfold handle_send_message. rewrite Hb, Hm. simpl.
  destruct (send_message bot _ _ _); reflexivity.
Qed.

(** The startup of [lifespan] leaves a bot behind whenever it does not exit. *)
Lemma lifespan_startup_bot (g0 g : Globals) (c : ConnectOutcome) (efs : list Effect) :
  lifespan_startup g0 c = (Some g, efs) → is_Some (telegram_bot g).
Proof.
  unfold lifespan_startup. destruct c as [e|bot e|bot username]; simpl;
    intros [= <- _]; simpl; eauto.
Qed.

(** ** [tools/call] *)

Lemma route_tools_call (g : Globals) (request : JSONRPCRequest) (session : SSESession) :
  request_method request = "tools/call" →
  handle_mcp_request g request session
  = match handle_tools_call g (params_or_empty request) session with
    | (Return result, efs) =>
        (success_envelope (request_id request) result, session, efs)
    | (Raise (HTTPException status detail), efs) =>
        (error_envelope (request_id request) status detail, session, efs)
    | (Raise (PyError e), efs) =>
        (error_envelope (request_id request) (-32603) ("Internal error: " +:+ e),
         session,
         efs ++ [Log ERROR ("Error handling MCP request tools/call: " +:+ e)])
    end.
Proof.
  intros Hm. unfold handle_mcp_request, dispatch. rewrite Hm. simpl.
  destruct (handle_tools_call g (params_or_empty request) session)
    as [[result|[status detail|e]] efs]; simpl; by rewrite ?app_nil_r.
Qed.

Lemma handle_tools_call_unknown (g : Globals) (params : PyDict) (session : SSESession) :
  hashable (py_get params "name") = true →
  registered (py_get params "name") = false →
  ∃ shown, handle_tools_call g params session
           = raise (HTTPException 400 ("Unknown tool: " +:+ shown)).
Proof.
  intros Hh Hr. unfold handle_tools_call.
  destruct (py_get params "name") as [|b|n|s|l|o]; try discriminate; eauto.
  unfold registered in Hr. destruct (tools_lookup TOOLS s); [discriminate|eauto].
Qed.

(** A tool name that can be hashed and is not in the registry is answered
    with the application error's own status code, 400. *)
Lemma unknown_tool_is_application_error
    (g : Globals) (request : JSONRPCRequest) (session : SSESession) :
  request_method request = "tools/call" →
  hashable (py_get (params_or_empty request) "name") = true →
  registered (py_get (params_or_empty request) "name") = false →
  ∃ shown,
    handle_mcp_request g request session
    = (error_envelope (request_id request) 400 ("Unknown tool: " +:+ shown), session, []).
Proof.
  intros Hm Hh Hr. rewrite (route_tools_call _ _ _ Hm).
  destruct (handle_tools_call_unknown g _ session Hh Hr) as [shown ->]. eauto.
Qed.

Lemma handle_tools_call_send (g : Globals) (params : PyDict) (session : SSESession) :
  py_get params "name" = JStr "send_message" →
  handle_tools_call g params session
  = (tell (ToolHandlerCall "send_message" (py_get_default params "arguments" (JObj []))) ;;;
     result <- handle_send_message g (py_get_default params "arguments" (JObj [])) ;;
     ret [("content",
           JList [JObj [("type", JStr "text");
                        ("text", JStr (json_dumps_indent 2 (JObj result)))]])]).
Proof. intros Hn. unfold handle_tools_call. rewrite Hn. reflexivity. Qed.

(** With the bot connected, a call of the send tool whose arguments are
    left out, or are a mapping with no (or a falsy) [message], is answered
    with the validation error: code 400, neither -32603 nor the 500 of a
    failed delivery. *)
Lemma missing_message_is_validation_error
    (g : Globals) (bot : Bot) (request : JSONRPCRequest) (session : SSESession)
    (d : PyDict) :
  telegram_bot g = Some bot →
  request_method request = "tools/call" →
  py_get (params_or_empty request) "name" = JStr "send_message" →
  py_get_default (params_or_empty request) "arguments" (JObj []) = JObj d →
  truthy (py_get d "message") = false →
  handle_mcp_request g request session
  = (error_envelope (request_id request) 400 "Missing 'message' parameter", session,
     [ToolHandlerCall "send_message" (JObj d)]).
Proof.
  intros Hb Hm Hn Ha Hf. rewrite (route_tools_call _ _ _ Hm).
  rewrite (handle_tools_call_send _ _ _ Hn), Ha.
  rewrite (handle_send_message_falsy _ _ _ Hb Hf). reflexivity.
Qed.

(** A delivery that fails is answered with code 500. *)
Lemma failed_delivery_is_500
    (g : Globals) (bot : Bot) (request : JSONRPCRequest) (session : SSESession)
    (d : PyDict) (e : string) :
  telegram_bot g = Some bot →
  request_method request = "tools/call" →
  py_get (params_or_empty request) "name" = JStr "send_message" →
  py_get_default (params_or_empty request) "arguments" (JObj []) = JObj d →
  truthy (py_get d "message") = true →
  send_message bot (telegram_chat_id (settings g)) (py_get d "message")
               (forwarded_parse_mode d) = SendError e →
  error_code (handle_mcp_request g request session).1.1 = Some 500%Z.
Proof.
  intros Hb Hm Hn Ha Ht Hs. rewrite (route_tools_call _ _ _ Hm).
  rewrite (handle_tools_call_send _ _ _ Hn), Ha.
  rewrite (handle_send_message_truthy _ _ _ Hb Ht). simpl. rewrite Hs. reflexivity.
Qed.

(** C3, where the code departs from it.  A [tools/call] whose [name] is a
    JSON array names a tool absent from the registry, yet hashing the name
    in [tool_name not in TOOLS] raises a [TypeError], which the router
    flattens to -32603 instead of answering with the 400 of [Unknown tool].
    Likewise a call of the send tool with [arguments] null has no [message],
    yet [params.get] on [None] raises an [AttributeError], flattened to
    -32603 instead of the 400 of the missing parameter. *)
Theorem C3_unhashable_tool_name_flattened
    (g : Globals) (st : Settings) (bot : Bot) (id : JSON) (session : SSESession)
    (elements : list JSON) :
  let by_name := mkRequest "2.0" id "tools/call" (Some [("name", JList elements)]) in
  let no_arguments :=
    mkRequest "2.0" id "tools/call"
              (Some [("name", JStr "send_message"); ("arguments", JNull)]) in
  registered (JList elements) = false
  ∧ handle_mcp_request g by_name session
    = (error_envelope id (-32603) "Internal error: unhashable type: 'list'", session,
       [Log ERROR "Error handling MCP request tools/call: unhashable type: 'list'"])
  ∧ error_code (handle_mcp_request g by_name session).1.1 = Some (-32603)%Z
  ∧ handle_mcp_request (mkGlobals st (Some bot)) no_arguments session
    = (error_envelope id (-32603)
         "Internal error: 'NoneType' object has no attribute 'get'",
       session,
       [ToolHandlerCall "send_message" JNull;
        Log ERROR
          "Error handling MCP request tools/call: 'NoneType' object has no attribute 'get'"]).
Proof. repeat split. Qed.

(** C10: with the bot connected, [handle_send_message] raises the 400
    [Missing 'message' parameter] error for every arguments mapping whose
    [message] is absent or falsy and sends nothing; the empty string is
    such a value although the advertised [inputSchema] validates it, so a
    [tools/call] of the send tool with it is answered with that error. *)
Theorem C10_falsy_message_rejected
    (g : Globals) (bot : Bot) (d : PyDict) (id : JSON) (session : SSESession) :
  telegram_bot g = Some bot →
  truthy (py_get d "message") = false →
  handle_send_message g (JObj d)
  = (Raise (HTTPException 400 "Missing 'message' parameter"), [])
  ∧ handle_mcp_request g
      (mkRequest "2.0" id "tools/call"
                 (Some [("name", JStr "send_message"); ("arguments", JObj d)]))
      session
    = (error_envelope id 400 "Missing 'message' parameter", session,
       [ToolHandlerCall "send_message" (JObj d)])
  ∧ truthy (JStr EmptyString) = false
  ∧ validate send_message_inputSchema (JObj [("message", JStr EmptyString)]) = true
  ∧ listed_inputSchema "send_message" = Some send_message_inputSchema.
Proof.
  intros Hb Hf. split; [exact (handle_send_message_falsy _ _ _ Hb Hf)|].
  split; [|repeat split].
  by apply (missing_message_is_validation_error g bot).
Qed.

Lemma C10_falsy_message_rejected_witness :
  let g := mkGlobals (mkSettings "token" "42" "127.0.0.1" 8008 false)
                     (Some (mkBot (fun _ _ _ => Sent (mkSent 1 42 None)))) in
  let d := [("message", JStr EmptyString)] in
  truthy (py_get d "message") = false
  ∧ handle_send_message g (JObj d)
    = (Raise (HTTPException 400 "Missing 'message' parameter"), []).
Proof.
  split; [reflexivity|].
  apply (C10_falsy_message_rejected
           (mkGlobals (mkSettings "token" "42" "127.0.0.1" 8008 false)
                      (Some (mkBot (fun _ _ _ => Sent (mkSent 1 42 None)))))
           (mkBot (fun _ _ _ => Sent (mkSent 1 42 None)))
           [("message", JStr EmptyString)] JNull (new_session "s1"));
    reflexivity.
Defined.

(** ** Discovery against invocation *)

Section SchemaFacts.
#[local] Arguments String.eqb : simpl never.

(** What the advertised schema of the send tool asks of a value. *)
Lemma validate_send_message_inputSchema (arguments : JSON) :
  validate send_message_inputSchema arguments
  = match arguments with
    | JObj d =>
        match dict_get d "message" with
        | Some x => has_type (JStr "string") x
        | None => false
        end
        && match dict_get d "parse_mode" with
           | Some x =>
               has_type (JStr "string") x
               && in_enum (JList [JStr "Markdown"; JStr "MarkdownV2"; JStr "HTML"]) x
           | None => true
           end
    | _ => false
    end.
Proof.
  destruct arguments as [|b|n|s|l|d]; try reflexivity.
  change (validate send_message_inputSchema (JObj d))
    with (true
          && (match dict_get d "message" with
              | Some x => has_type (JStr "string") x && true
              | None => true
              end
              && (match dict_get d "parse_mode" with
                  | Some x =>
                      has_type (JStr "string") x
                      && (in_enum (JList [JStr "Markdown"; JStr "MarkdownV2"; JStr "HTML"]) x
                          && true)
                  | None => true
                  end && true)
              && (match dict_get d "message" with Some _ => true | None => false end
                  && true && true))).
  destruct (dict_get d "message") as [x|]; destruct (dict_get d "parse_mode") as [y|];
    simpl; rewrite ?andb_true_r, ?andb_false_r; reflexivity.
Qed.

Lemma in_enum_parse_mode (p : string) :
  in_enum (JList [JStr "Markdown"; JStr "MarkdownV2"; JStr "HTML"]) (JStr p) = true
  ↔ p = "Markdown" ∨ p = "MarkdownV2" ∨ p = "HTML".
Proof.
  simpl. rewrite orb_false_r, !orb_true_iff, !String.eqb_eq.
  intuition congruence.
Qed.
End SchemaFacts.

(** The schema validates exactly the mappings with a string [message] and
    with [parse_mode] absent or one of the three enumerated strings. *)
Lemma schema_valid_iff (arguments : JSON) :
  validate send_message_inputSchema arguments = true
  ↔ ∃ d s, arguments = JObj d ∧ dict_get d "message" = Some (JStr s)
           ∧ (dict_get d "parse_mode" = None
              ∨ ∃ p, dict_get d "parse_mode" = Some (JStr p)
                     ∧ (p = "Markdown" ∨ p = "MarkdownV2" ∨ p = "HTML")).
Proof.
  rewrite validate_send_message_inputSchema. split.
  - destruct arguments as [|b|n|s|l|d]; try discriminate.
    destruct (dict_get d "message") as [[| | |s| |]|] eqn:Hm; try discriminate.
    intros H. exists d, s. split; [done|]. split; [done|].
    destruct (dict_get d "parse_mode") as [[| | |p| |]|] eqn:Hp; try discriminate;
      [|by left].
    right. exists p. split; [done|]. by apply in_enum_parse_mode.
  - intros (d & s & -> & -> & [->|(p & -> & Hp)]); [done|].
    apply in_enum_parse_mode in Hp. simpl. simpl in Hp. by rewrite Hp.
Qed.

Lemma accepts_iff (g : Globals) (bot : Bot) (arguments : JSON) :
  telegram_bot g = Some bot →
  accepts g arguments = true
  ↔ ∃ d, arguments = JObj d ∧ truthy (py_get d "message") = true.
Proof.
  intros Hb. unfold accepts. split.
  - destruct arguments as [|b|n|s|l|d];
      try (unfold handle_send_message; rewrite Hb; simpl; discriminate).
    destruct (truthy (py_get d "message")) eqn:Ht; [eauto|].
    by rewrite (handle_send_message_falsy _ _ _ Hb Ht).
  - intros (d & -> & Ht). rewrite (handle_send_message_truthy _ _ _ Hb Ht). simpl.
    by destruct (send_message bot _ _ _).
Qed.

(** C2, where the code departs from it: the handler lets through an
    argument set the schema rejects (an unlisted [parse_mode]) and rejects
    one the schema validates (the empty [message]). *)
Lemma C2_schema_and_handler_disagree :
  let g := mkGlobals (mkSettings "token" "42" "127.0.0.1" 8008 false)
                     (Some (mkBot (fun _ _ _ => Sent (mkSent 1 42 None)))) in
  let unlisted := JObj [("message", JStr "hi"); ("parse_mode", JStr "Fancy")] in
  let empty := JObj [("message", JStr EmptyString)] in
  listed_inputSchema "send_message" = Some send_message_inputSchema
  ∧ (validate send_message_inputSchema unlisted = false ∧ accepts g unlisted = true)
  ∧ (validate send_message_inputSchema empty = true ∧ accepts g empty = false).
Proof. vm_compute. repeat split. Qed.

(** C2, amended: with the bot connected, [handle_send_message] accepts
    exactly the argument mappings whose [message] is truthy, whatever
    [parse_mode] is.  The schema of [tools/list] validates the mappings
    with a string [message] and a [parse_mode] that is absent or one of
    [Markdown], [MarkdownV2], [HTML]; every such mapping with a non-empty
    [message] is accepted. *)
Theorem C2_schema_valid_nonempty_accepted (g : Globals) (bot : Bot) (arguments : JSON) :
  telegram_bot g = Some bot →
  (accepts g arguments = true
   ↔ ∃ d, arguments = JObj d ∧ truthy (py_get d "message") = true)
  ∧ (validate send_message_inputSchema arguments = true
     ↔ ∃ d s, arguments = JObj d ∧ dict_get d "message" = Some (JStr s)
              ∧ (dict_get d "parse_mode" = None
                 ∨ ∃ p, dict_get d "parse_mode" = Some (JStr p)
                        ∧ (p = "Markdown" ∨ p = "MarkdownV2" ∨ p = "HTML")))
  ∧ (validate send_message_inputSchema arguments = true →
     ∀ d, arguments = JObj d → dict_get d "message" ≠ Some (JStr EmptyString) →
          accepts g arguments = true).
Proof.
  intros Hb. split; [exact (accepts_iff g bot arguments Hb)|].
  split; [exact (schema_valid_iff arguments)|].
  intros Hv d -> Hne. apply (accepts_iff g bot _ Hb). exists d. split; [done|].
  apply schema_valid_iff in Hv as (d' & s & [= <-] & Hm & _).
  unfold py_get. rewrite Hm. simpl.
  destruct s as [|c s]; [by destruct Hne|done].
Qed.

Lemma C2_schema_valid_nonempty_accepted_witness :
  let bot := mkBot (fun _ _ _ => Sent (mkSent 1 42 None)) in
  let g := mkGlobals (mkSettings "token" "42" "127.0.0.1" 8008 false) (Some bot) in
  let arguments := JObj [("message", JStr "hi"); ("parse_mode", JStr "HTML")] in
  telegram_bot g = Some bot
  ∧ validate send_message_inputSchema arguments = true
  ∧ accepts g arguments = true.
Proof.
  split; [reflexivity|]. split; [reflexivity|].
  apply (C2_schema_valid_nonempty_accepted
           (mkGlobals (mkSettings "token" "42" "127.0.0.1" 8008 false)
                      (Some (mkBot (fun _ _ _ => Sent (mkSent 1 42 None)))))
           (mkBot (fun _ _ _ => Sent (mkSent 1 42 None)))
           (JObj [("message", JStr "hi"); ("parse_mode", JStr "HTML")])
           eq_refl)
    with (d := [("message", JStr "hi"); ("parse_mode", JStr "HTML")]);
    [reflexivity | reflexivity | discriminate].
Defined.

(** ** The parse mode of the Telegram call *)

Lemma forwarded_parse_mode_cases (d : PyDict) :
  (dict_get d "parse_mode" = Some (JStr "MarkdownV2")
   ∧ forwarded_parse_mode d = "MarkdownV2")
  ∨ (dict_get d "parse_mode" ≠ Some (JStr "MarkdownV2")
     ∧ forwarded_parse_mode d = "Markdown").
Proof.
  unfold forwarded_parse_mode, py_get.
  destruct (dict_get d "parse_mode") as [[|b|n|s|l|o]|]; simpl; try (right; done).
  destruct (String.eqb_spec s "MarkdownV2") as [->|Hne]; [left; done|].
  right. split; [congruence|done].
Qed.

(** Whatever the state of the bot and the arguments, a Telegram call the
    handler makes carries the parse mode computed from [parse_mode]. *)
Lemma every_call_forwards_parse_mode (g : Globals) (d : PyDict)
    (chat : string) (text : JSON) (mode : string) :
  TelegramSend chat text mode ∈ (handle_send_message g (JObj d)).2 →
  mode = forwarded_parse_mode d.
Proof.
  unfold handle_send_message.
  destruct (telegram_bot g) as [bot|]; simpl; [|by intros ?%elem_of_nil].
  destruct (truthy (py_get d "message")); simpl; [|by intros ?%elem_of_nil].
  destruct (send_message bot _ _ _) as [m|e]; simpl; intros Hin;
    repeat (apply elem_of_cons in Hin as [Hin|Hin]; [congruence|]);
    by apply elem_of_nil in Hin.
Qed.

(** C9: with the bot connected and a truthy [message], the handler makes
    one Telegram call, first of its effects, and the [parse_mode] it
    forwards is [MarkdownV2] exactly when the argument [parse_mode] is the
    string [MarkdownV2]; for every other value, absent or [HTML] or
    unlisted, it is [Markdown], so [HTML] is never forwarded. *)
Theorem C9_parse_mode_forwarded (g : Globals) (bot : Bot) (d : PyDict) :
  telegram_bot g = Some bot →
  truthy (py_get d "message") = true →
  ∃ mode rest,
    (handle_send_message g (JObj d)).2
    = TelegramSend (telegram_chat_id (settings g)) (py_get d "message") mode :: rest
    ∧ (∀ chat text mode', TelegramSend chat text mode' ∈ (handle_send_message g (JObj d)).2 →
                          mode' = mode)
    ∧ (mode = "MarkdownV2" ↔ dict_get d "parse_mode" = Some (JStr "MarkdownV2"))
    ∧ (dict_get d "parse_mode" ≠ Some (JStr "MarkdownV2") → mode = "Markdown")
    ∧ mode ≠ "HTML".
Proof.
  intros Hb Ht. rewrite (handle_send_message_truthy _ _ _ Hb Ht). simpl.
  exists (forwarded_parse_mode d).
  destruct (send_message bot _ _ _) as [m|e]; simpl;
    (eexists; split; [reflexivity|]);
    (split; [intros chat text mode' Hin;
             repeat (apply elem_of_cons in Hin as [Hin|Hin]; [congruence|]);
             by apply elem_of_nil in Hin|]);
    destruct (forwarded_parse_mode_cases d) as [[Hp ->]|[Hp ->]];
    repeat split; try done; try congruence.
Qed.

Lemma C9_parse_mode_forwarded_witness :
  let bot := mkBot (fun _ _ _ => Sent (mkSent 1 42 None)) in
  let g := mkGlobals (mkSettings "token" "42" "127.0.0.1" 8008 false) (Some bot) in
  let d := [("message", JStr "hi"); ("parse_mode", JStr "HTML")] in
  telegram_bot g = Some bot
  ∧ truthy (py_get d "message") = true
  ∧ ∃ mode rest,
      (handle_send_message g (JObj d)).2 = TelegramSend "42" (JStr "hi") mode :: rest
      ∧ mode = "Markdown".
Proof.
  split; [reflexivity|]. split; [reflexivity|].
  destruct (C9_parse_mode_forwarded
              (mkGlobals (mkSettings "token" "42" "127.0.0.1" 8008 false)
                         (Some (mkBot (fun _ _ _ => Sent (mkSent 1 42 None)))))
              (mkBot (fun _ _ _ => Sent (mkSent 1 42 None)))
              [("message", JStr "hi"); ("parse_mode", JStr "HTML")]
              eq_refl eq_refl)
    as (mode & rest & H1 & _ & _ & H4 & _).
  exists mode, rest. split; [exact H1|]. apply H4. discriminate.
Defined.

(** ** The call endpoint *)

Lemma dispatch_keeps_queues (g : Globals) (request : JSONRPCRequest) (s : SSESession) :
  event_queue (dispatch g request s).2 = event_queue s
  ∧ notification_queue (dispatch g request s).2 = notification_queue s
  ∧ session_id (dispatch g request s).2 = session_id s.
Proof.
  unfold dispatch.
  repeat (match goal with |- context [if ?b then _ else _] => destruct b end); done.
Qed.

Lemma handle_mcp_request_keeps_queues (g : Globals) (request : JSONRPCRequest)
    (s : SSESession) :
  event_queue (handle_mcp_request g request s).1.2 = event_queue s
  ∧ notification_queue (handle_mcp_request g request s).1.2 = notification_queue s
  ∧ session_id (handle_mcp_request g request s).1.2 = session_id s.
Proof.
  unfold handle_mcp_request.
  pose proof (dispatch_keeps_queues g request s) as H.
  destruct (dispatch g request s) as [[o efs] s']. simpl in H.
  destruct o as [[envelope|result]|[status detail|e]]; simpl; done.
Qed.

Lemma handle_mcp_request_truthy (g : Globals) (request : JSONRPCRequest) (s : SSESession) :
  truthy (JObj (handle_mcp_request g request s).1.1) = true.
Proof.
  destruct (handle_mcp_request_shape g request s) as [[r ->]|(c & m & ->)]; done.
Qed.

Lemma send_event_notification_queue (s : SSESession) (event : string) :
  notification_queue (send_event s event).1.2 = notification_queue s.
Proof.
  unfold send_event. destruct (closed s); [done|]. by destruct (put_nowait _ _).
Qed.

Lemma send_event_items (s : SSESession) (event : string) :
  closed s = false →
  items (event_queue (send_event s event).1.2)
  = if full (event_queue s) then items (event_queue s)
    else items (event_queue s) ++ [event].
Proof.
  intros Hc. unfold send_event, put_nowait. rewrite Hc.
  by destruct (full (event_queue s)).
Qed.

(** C1, where the code departs from it: a session is opened and an
    [initialize] call is posted to it; the endpoint answers [accepted], the
    notification queue is still empty and the response is already in the
    raw-event queue, put there by [send_event] without passing the relay. *)
Lemma C1_response_bypasses_notification_queue :
  let g := mkGlobals (mkSettings "token" "42" "127.0.0.1" 8008 false)
                     (Some (mkBot (fun _ _ _ => Sent (mkSent 1 42 None)))) in
  let '(a, w) := sse_endpoint (mkWorld ∅ ∅) "s1" in
  let request := mkRequest "2.0" (JInt 1) "initialize" None in
  let response := (handle_mcp_request g request (new_session "s1")).1.1 in
  ∃ w' efs session',
    message_endpoint g undisturbed undisturbed w "s1" (inr request)
    = Some (Accepted, w', efs)
    ∧ heap w' !! a = Some session'
    ∧ items (notification_queue session') = []
    ∧ items (event_queue session') = [message_frame (json_dumps (JObj response))].
Proof.
  vm_compute. do 3 eexists. repeat split; reflexivity.
Qed.

Lemma empty_queue_not_full {A} (q : Queue A) : items q = [] → full q = false.
Proof.
  intros Hi. unfold full, qsize. rewrite Hi.
  change (Z.of_nat (List.length [])) with 0%Z. by destruct (maxsize q <=? 0)%Z.
Qed.

Lemma send_event_outcome (s : SSESession) (event : string) :
  items (event_queue (send_event s event).1.2)
  = if closed s || full (event_queue s) then items (event_queue s)
    else items (event_queue s) ++ [event].
Proof.
  unfold send_event, put_nowait. destruct (closed s); [done|].
  by destruct (full (event_queue s)).
Qed.

(** What the endpoint does with a parsed body on a session that was
    registered and open when the call arrived, whatever the other tasks do
    while it is suspended. *)
Lemma message_endpoint_accepts
    (g : Globals) (env1 env2 : World → World) (w : World) (sessionId : string) (a : nat)
    (session session0 session2 : SSESession) (request : JSONRPCRequest) :
  sessions w !! sessionId = Some a →
  heap w !! a = Some session →
  closed session = false →
  heap (env1 w) !! a = Some session0 →
  let r := handle_mcp_request g request session0 in
  let w2 := after_router env2 (env1 w) a r.1.2 r.2 in
  heap w2 !! a = Some session2 →
  let sent := send_event session2 (message_frame (json_dumps (JObj r.1.1))) in
  message_endpoint g env1 env2 w sessionId (inr request)
  = Some (Accepted, store w2 a sent.1.2, r.2 ++ sent.2).
Proof.
  intros Hs Hh Hc Hh0 r w2 Hh2 sent. subst sent w2 r.
  pose proof (handle_mcp_request_truthy g request session0) as Ht.
  unfold message_endpoint. rewrite Hs, Hh. simpl. rewrite Hc, Hh0. simpl.
  destruct (handle_mcp_request g request session0) as [[response session1] efs1].
  simpl in *. rewrite Ht, Hh2. simpl.
  by destruct (send_event session2 _) as [[b session3] efs2].
Qed.

(** C1, amended: for every call the endpoint handles (its session
    registered and open when the call arrives), the response envelope of
    the router is serialised into a [message] frame and handed by
    [send_event] straight to the session's raw-event queue, whatever the
    other tasks did to the session while the endpoint was suspended in the
    read of the body and in the Telegram call: the frame is put at the end
    of that queue if the session is then still open and the queue not
    full, and dropped otherwise; the endpoint answers [accepted] in both
    cases, and it never writes to the notification queue. *)
Theorem C1_response_enqueued_as_raw_event
    (g : Globals) (env1 env2 : World → World) (w : World) (sessionId : string) (a : nat)
    (session session0 session2 : SSESession) (request : JSONRPCRequest) :
  sessions w !! sessionId = Some a →
  heap w !! a = Some session →
  closed session = false →
  heap (env1 w) !! a = Some session0 →
  let response := (handle_mcp_request g request session0).1.1 in
  let w2 := after_router env2 (env1 w) a (handle_mcp_request g request session0).1.2
                         (handle_mcp_request g request session0).2 in
  heap w2 !! a = Some session2 →
  let event := message_frame (json_dumps (JObj response)) in
  ∃ efs,
    message_endpoint g env1 env2 w sessionId (inr request)
    = Some (Accepted, store w2 a (send_event session2 event).1.2, efs)
    ∧ notification_queue (send_event session2 event).1.2 = notification_queue session2
    ∧ items (event_queue (send_event session2 event).1.2)
      = (if closed session2 || full (event_queue session2)
         then items (event_queue session2)
         else items (event_queue session2) ++ [event])
    ∧ notification_queue (handle_mcp_request g request session0).1.2
      = notification_queue session0.
Proof.
  intros Hs Hh Hc Hh0 response w2 Hh2 event. subst response w2 event.
  eexists. split.
  - exact (message_endpoint_accepts g env1 env2 w sessionId a session session0 session2
             request Hs Hh Hc Hh0 Hh2).
  - split; [apply send_event_notification_queue|].
    split; [apply send_event_outcome|].
    by destruct (handle_mcp_request_keeps_queues g request session0) as (_ & ? & _).
Qed.

Lemma C1_response_enqueued_as_raw_event_witness :
  let g := mkGlobals (mkSettings "token" "42" "127.0.0.1" 8008 false) None in
  let w := mkWorld {[0 := new_session "s1"]} {["s1" := 0]} in
  let shutdown := fun w => (lifespan_shutdown w).1 in
  let request := mkRequest "2.0" (JInt 1) "tools/list" None in
  sessions w !! "s1" = Some 0
  ∧ heap w !! 0 = Some (new_session "s1")
  ∧ closed (new_session "s1") = false
  ∧ heap (shutdown w) !! 0 = Some (close (new_session "s1"))
  ∧ ∃ w' efs session',
      message_endpoint g shutdown undisturbed w "s1" (inr request)
      = Some (Accepted, w', efs)
      ∧ heap w' !! 0 = Some session'
      ∧ items (event_queue session') = []
      ∧ items (notification_queue session') = [].
Proof.
  intros g w shutdown request.
  split; [vm_compute; reflexivity|].
  split; [vm_compute; reflexivity|].
  split; [reflexivity|].
  split; [vm_compute; reflexivity|].
  destruct (C1_response_enqueued_as_raw_event g shutdown undisturbed w "s1" 0
              (new_session "s1") (close (new_session "s1")) (close (new_session "s1"))
              request)
    as (efs & H1 & H2 & H3 & _);
    [vm_compute; reflexivity | vm_compute; reflexivity | reflexivity
    | vm_compute; reflexivity | vm_compute; reflexivity |].
  eexists _, efs, _. split; [exact H1|].
  split; [apply lookup_insert_eq|].
  split; [rewrite H3; reflexivity | rewrite H2; reflexivity].
Defined.

(** Without interleaving the frame is in the queue when the endpoint
    returns, unless the queue was full. *)
Lemma message_endpoint_uninterrupted
    (g : Globals) (w : World) (sessionId : string) (a : nat) (session : SSESession)
    (request : JSONRPCRequest) :
  sessions w !! sessionId = Some a →
  heap w !! a = Some session →
  closed session = false →
  let response := (handle_mcp_request g request session).1.1 in
  let session1 := (handle_mcp_request g request session).1.2 in
  let event := message_frame (json_dumps (JObj response)) in
  ∃ w' efs,
    message_endpoint g undisturbed undisturbed w sessionId (inr request)
    = Some (Accepted, w', efs)
    ∧ heap w' !! a = Some (send_event session1 event).1.2
    ∧ notification_queue (send_event session1 event).1.2 = notification_queue session
    ∧ items (event_queue (send_event session1 event).1.2)
      = if full (event_queue session) then items (event_queue session)
        else items (event_queue session) ++ [event].
Proof.
  intros Hs Hh Hc response session1 event. subst response session1 event.
  destruct (handle_mcp_request_keeps_queues g request session) as (Hq & Hn & _).
  pose proof (handle_mcp_request_keeps_closed g request session) as Hc'.
  assert (heap (after_router undisturbed (undisturbed w) a
                  (handle_mcp_request g request session).1.2
                  (handle_mcp_request g request session).2) !! a
          = Some (handle_mcp_request g request session).1.2) as Hh2.
  { unfold after_router, undisturbed.
    destruct (suspends_in_send _); apply lookup_insert_eq. }
  eexists _, _. split.
  - exact (message_endpoint_accepts g undisturbed undisturbed w sessionId a session session
             _ request Hs Hh Hc Hh Hh2).
  - split; [apply lookup_insert_eq|].
    split; [by rewrite send_event_notification_queue|].
    rewrite send_event_outcome, Hc', Hc, Hq. done.
Qed.

(** With interleaving an accepted call can lose its frame: the process
    shuts down while the endpoint reads the body, the session is closed
    when [send_event] runs, and the endpoint still answers [accepted]. *)
Lemma accepted_call_can_lose_its_frame :
  let g := mkGlobals (mkSettings "token" "42" "127.0.0.1" 8008 false) None in
  let w := mkWorld {[0 := new_session "s1"]} {["s1" := 0]} in
  let shutdown := fun w => (lifespan_shutdown w).1 in
  let request := mkRequest "2.0" (JInt 1) "initialize" None in
  ∃ w' efs session',
    message_endpoint g shutdown undisturbed w "s1" (inr request) = Some (Accepted, w', efs)
    ∧ heap w' !! 0 = Some session'
    ∧ closed session' = true
    ∧ items (event_queue session') = [].
Proof. vm_compute. do 3 eexists. repeat split; reflexivity. Qed.

(** ** The event stream driver *)

Lemma finally_block_spec (st : Stream) (w : World) (exit : Control) (efs0 : list Effect)
    (session : SSESession) :
  heap w !! stream_session st = Some session →
  ∃ w' tail,
    finally_block st w exit efs0 = Some (at_control st exit, w', None, efs0 ++ tail)
    ∧ heap w' !! stream_session st = Some (close session)
    ∧ sessions w' !! session_id session = None
    ∧ teardowns tail = 1 ∧ cancels tail = 0.
Proof.
  intros Hh. unfold finally_block. rewrite Hh. simpl.
  destruct (sessions w !! session_id session) eqn:Hs.
  - eexists _, _. split; [reflexivity|]. simpl.
    rewrite lookup_insert_eq, lookup_delete_eq. done.
  - eexists _, _. split; [reflexivity|]. simpl.
    rewrite lookup_insert_eq. done.
Qed.

(** A generator that has ended does nothing more. *)
Lemma ended_absorbing (sig : Signal) (st : Stream) (w : World) :
  ended (control st) = true →
  sse_event_stream sig st w = Some (st, w, None, []).
Proof.
  unfold sse_event_stream. destruct (control st); try discriminate; done.
Qed.

Lemma teardowns_app (xs ys : list Effect) :
  teardowns (xs ++ ys) = teardowns xs + teardowns ys.
Proof. unfold teardowns. by rewrite List.filter_app, List.length_app. Qed.

(** Every resumption that ends a started generator runs the [finally]
    block, once: the session is closed and gone from the registry. *)
Lemma teardown_on_every_exit (sig : Signal) (st st' : Stream) (w w' : World)
    (session : SSESession) (frame : option string) (efs : list Effect) :
  heap w !! stream_session st = Some session →
  control st ≠ NotStarted →
  ended (control st) = false →
  sse_event_stream sig st w = Some (st', w', frame, efs) →
  ended (control st') = true →
  teardowns efs = 1
  ∧ heap w' !! stream_session st = Some (close session)
  ∧ sessions w' !! session_id session = None.
Proof.
  intros Hh Hns Hne Hstep Hend.
  assert (∀ st0 exit efs0,
            stream_session st0 = stream_session st →
            teardowns efs0 = 0 →
            finally_block st0 w exit efs0 = Some (st', w', frame, efs) →
            teardowns efs = 1
            ∧ heap w' !! stream_session st = Some (close session)
            ∧ sessions w' !! session_id session = None) as Hfin.
  { intros st0 exit efs0 Ha H0 Hf. rewrite <- Ha in Hh.
    destruct (finally_block_spec st0 w exit efs0 session Hh)
      as (w1 & tail & Hf' & H1 & H2 & H3 & _).
    rewrite Hf' in Hf. injection Hf as <- <- <- <-.
    rewrite teardowns_app, H0, H3, <- Ha. done. }
  unfold sse_event_stream in Hstep.
  destruct (control st) eqn:Hc; try done;
    destruct sig as [|[| | |e]];
    unfold loop_except, outer_except, loop_test, clean_up, yield_keep_alive in Hstep;
    simpl in Hstep; rewrite ?Hh in Hstep; simpl in Hstep;
    repeat match type of Hstep with
           | context [if ?b then _ else _] => destruct b
           | context [match take_event ?s with _ => _ end] =>
               destruct (take_event s) as [[? ?]|]
           end;
    try (injection Hstep as <- <- <- <-; simpl in Hend; rewrite ?Hc in Hend; discriminate);
    try (by eapply Hfin; [| |exact Hstep]).
Qed.

(** A cancellation or [aclose()] that reaches the generator inside its main
    loop goes straight to [finally]: the relay task is neither cancelled
    nor awaited. *)
Lemma cancellation_skips_task_cancel (st : Stream) (w : World) (session : SSESession)
    (t : Thrown) :
  heap w !! stream_session st = Some session →
  control st = AtEventWait ∨ control st = AtEventYield ∨ control st = AtKeepAliveYield →
  is_Exception t = false →
  ∃ w' efs,
    sse_event_stream (Throw t) st w = Some (at_control st (Propagated t), w', None, efs)
    ∧ cancels efs = 0
    ∧ teardowns efs = 1
    ∧ notification_task (at_control st (Propagated t)) = notification_task st.
Proof.
  intros Hh Hc Ht.
  destruct (finally_block_spec st w (Propagated t) [] session Hh)
    as (w' & tail & Hf & _ & _ & H1 & H2).
  exists w', tail. unfold sse_event_stream.
  destruct Hc as [-> | [-> | ->]]; destruct t; try discriminate;
    unfold loop_except, outer_except; simpl; rewrite Hf; done.
Qed.

(** Leaving the main loop, on the other hand, cancels the task and waits
    for it before the teardown. *)
Lemma loop_exit_cancels_then_joins (st : Stream) (w : World) (session : SSESession) :
  heap w !! stream_session st = Some session →
  closed session = true →
  control st = AtEventYield ∨ control st = AtKeepAliveYield →
  ∃ st1 w2 efs2,
    sse_event_stream Resume st w = Some (st1, w, None, [TaskCancel])
    ∧ control st1 = AtTaskJoin
    ∧ sse_event_stream (Throw CancelledError) st1 w
      = Some (at_control (with_task st1 TaskJoined) Finished, w2, None, TaskJoin :: efs2)
    ∧ teardowns efs2 = 1.
Proof.
  intros Hh Hcl Hc.
  set (st1 := at_control (with_task st TaskCancelling) AtTaskJoin).
  destruct (finally_block_spec (with_task st1 TaskJoined) w Finished [TaskJoin] session Hh)
    as (w2 & tail & Hf & _ & _ & H1 & _).
  exists st1, w2, tail. unfold sse_event_stream at 1.
  destruct Hc as [Hc|Hc]; rewrite Hc; unfold loop_test, clean_up; rewrite Hh; simpl;
    rewrite Hcl;
    (split; [reflexivity|]); (split; [reflexivity|]); (split; [exact Hf|exact H1]).
Qed.

(** The same on a run: the process shuts down while the stream idles; the
    loop sees the closed session, the task is cancelled and joined, and
    the teardown follows. *)
Lemma shutdown_route_cancels_and_joins :
  let '(a, w) := sse_endpoint (mkWorld ∅ ∅) "s1" in
  let st := mkStream a "http://127.0.0.1:8008" NotStarted None in
  let shutdown := fun w => (lifespan_shutdown w).1 in
  let script := [(Resume, fun w => w); (Resume, fun w => w);
                 (Throw TimeoutError, fun w => w); (Resume, shutdown);
                 (Throw CancelledError, fun w => w)] in
  ∃ st' w' frames efs,
    run_stream script st w = Some (st', w', frames, efs)
    ∧ control st' = Finished
    ∧ notification_task st' = Some TaskJoined
    ∧ efs = [TaskCancel; TaskJoin; SessionClose "s1"; RegistryDelete "s1"]
    ∧ closed <$> heap w' !! a = Some true
    ∧ sessions w' !! "s1" = None.
Proof. vm_compute. do 4 eexists. repeat split; reflexivity. Qed.

(** C8, where the code departs from it: a stream is opened, yields its
    endpoint event and a keep-alive, and the client disconnects, so that
    [GeneratorExit] is raised at the suspended [yield].  The [finally]
    block runs once, closing the session and removing it from the
    registry, but the relay task is left running: [notification_task] is
    neither cancelled nor awaited on this route. *)
Theorem C8_disconnect_leaves_relay_task_running :
  let '(a, w) := sse_endpoint (mkWorld ∅ ∅) "s1" in
  let st := mkStream a "http://127.0.0.1:8008" NotStarted None in
  let script := [(Resume, fun w => w); (Resume, fun w => w);
                 (Throw TimeoutError, fun w => w); (Throw GeneratorExit, fun w => w)] in
  ∃ st' w' frames efs,
    run_stream script st w = Some (st', w', frames, efs)
    ∧ control st' = Propagated GeneratorExit
    ∧ notification_task st' = Some TaskRunning
    ∧ frames = [endpoint_frame "http://127.0.0.1:8008" "s1"; keep_alive_frame]
    ∧ efs = [SessionClose "s1"; RegistryDelete "s1"]
    ∧ cancels efs = 0
    ∧ closed <$> heap w' !! a = Some true
    ∧ sessions w' !! "s1" = None.
Proof. vm_compute. do 4 eexists. repeat split; reflexivity. Qed.

(** ** Totality on a world without dangling references *)

Lemma sse_endpoint_well_formed (w : World) (uuid4 : string) :
  well_formed w → well_formed (sse_endpoint w uuid4).2.
Proof.
  intros Hw sid a. unfold sse_endpoint. simpl. intros Hs.
  destruct (decide (uuid4 = sid)) as [->|Hne].
  - rewrite lookup_insert_eq in Hs. injection Hs as <-.
    rewrite lookup_insert_eq. eauto.
  - rewrite lookup_insert_ne in Hs by done.
    destruct (Hw sid a Hs) as [s Hs'].
    destruct (decide (fresh (dom (heap w)) = a)) as [->|Hne'].
    + rewrite lookup_insert_eq. eauto.
    + rewrite lookup_insert_ne by done. eauto.
Qed.

Lemma message_endpoint_total (g : Globals) (env1 env2 : World → World) (w : World)
    (sessionId : string) (body : string + JSONRPCRequest) :
  well_formed w →
  (∀ w0 a, is_Some (heap w0 !! a) → is_Some (heap (env1 w0) !! a)) →
  (∀ w0 a, is_Some (heap w0 !! a) → is_Some (heap (env2 w0) !! a)) →
  is_Some (message_endpoint g env1 env2 w sessionId body).
Proof.
  intros Hw He1 He2. unfold message_endpoint.
  destruct (sessions w !! sessionId) as [a|] eqn:Hs; [|by eexists].
  destruct (Hw _ _ Hs) as [session Hh]. rewrite Hh. simpl.
  destruct (closed session); [by eexists|].
  destruct body as [e|request]; [by eexists|].
  destruct (He1 w a) as [session0 Hh0]; [by eexists|]. rewrite Hh0. simpl.
  destruct (handle_mcp_request g request session0) as [[response s1] efs1].
  assert (is_Some (heap (after_router env2 (env1 w) a s1 efs1) !! a)) as [s2 Hh2].
  { unfold after_router. destruct (suspends_in_send efs1); [apply He2|];
      simpl; rewrite lookup_insert_eq; by eexists. }
  destruct response as [|kv response]; simpl; [by eexists|].
  rewrite Hh2. simpl.
  destruct (send_event s2 _) as [[r s3] efs3]. by eexists.
Qed.

Lemma sse_event_stream_total (sig : Signal) (st : Stream) (w : World) :
  is_Some (heap w !! stream_session st) → is_Some (sse_event_stream sig st w).
Proof.
  intros [session Hh].
  assert (∀ st0 exit efs0, stream_session st0 = stream_session st →
                           is_Some (finally_block st0 w exit efs0)) as Hfin.
  { intros st0 exit efs0 Ha. rewrite <- Ha in Hh.
    destruct (finally_block_spec st0 w exit efs0 session Hh) as (? & ? & -> & _).
    by eexists. }
  unfold sse_event_stream.
  destruct (control st); destruct sig as [|[| | |e]];
    unfold loop_except, outer_except, loop_test, clean_up, yield_keep_alive;
    simpl; rewrite ?Hh; simpl;
    repeat match goal with
           | |- context [if ?b then _ else _] => destruct b
           | |- context [match take_event ?s with _ => _ end] =>
               destruct (take_event s) as [[? ?]|]
           end;
    try (by eexists); by apply Hfin.
Qed.

(** ** The relay task *)

(** A turn of the relay that finds a notification takes it off the
    notification queue and hands its frame to [send_event]. *)
Lemma relay_forwards (dump : JSONRPCNotification -> string) (session session1 : SSESession)
    (notification : JSONRPCNotification) :
  closed session = false →
  take_notification session = Some (notification, session1) →
  handle_notifications dump Resume session
  = (true, (send_event session1 (message_frame (dump notification))).1.2,
     (send_event session1 (message_frame (dump notification))).2).
Proof.
  intros Hc Ht. unfold handle_notifications. rewrite Hc, Ht.
  by destruct (send_event session1 _) as [[r s2] efs].
Qed.

(** ** The bounds of the queues *)

Lemma put_nowait_maxsize {A} (q q' : Queue A) (x : A) :
  put_nowait q x = Some q' → maxsize q' = maxsize q.
Proof. unfold put_nowait. destruct (full q); [done|]. by intros [= <-]. Qed.

Lemma get_nowait_maxsize {A} (q q' : Queue A) (x : A) :
  get_nowait q = Some (x, q') → maxsize q' = maxsize q.
Proof. unfold get_nowait. destruct (items q); [done|]. by intros [= _ <-]. Qed.

(** No operation on a session changes the bound of either queue, so both
    stay at the 100 of [SSESession.__init__]. *)
Lemma session_op_keeps_bounds (op : SessionOp) (s : SSESession) :
  maxsize (event_queue (session_op op s)) = maxsize (event_queue s)
  ∧ maxsize (notification_queue (session_op op s)) = maxsize (notification_queue s).
Proof.
  destruct op as [[event|n]| | | |g request]; simpl.
  - unfold send_event. destruct (closed s); [done|].
    destruct (put_nowait _ _) as [q|] eqn:Hp; simpl; [|done].
    split; [by eapply put_nowait_maxsize|done].
  - unfold send_notification. destruct (closed s); [done|].
    destruct (put_nowait _ _) as [q|] eqn:Hp; simpl; [|done].
    split; [done|by eapply put_nowait_maxsize].
  - done.
  - unfold take_event. destruct (get_nowait _) as [[e q]|] eqn:Hg; simpl; [|done].
    split; [by eapply get_nowait_maxsize|done].
  - unfold take_notification. destruct (get_nowait _) as [[e q]|] eqn:Hg; simpl; [|done].
    split; [done|by eapply get_nowait_maxsize].
  - destruct (handle_mcp_request_keeps_queues g request s) as (-> & -> & _). done.
Qed.

Lemma session_ops_keep_bounds (ops : list SessionOp) (sid : string) :
  maxsize (event_queue (session_ops ops (new_session sid))) = 100%Z
  ∧ maxsize (notification_queue (session_ops ops (new_session sid))) = 100%Z.
Proof.
  assert (∀ s, maxsize (event_queue s) = 100%Z ∧ maxsize (notification_queue s) = 100%Z →
               maxsize (event_queue (session_ops ops s)) = 100%Z
               ∧ maxsize (notification_queue (session_ops ops s)) = 100%Z) as H.
  { induction ops as [|op ops IH]; intros s Hs; [done|].
    unfold session_ops in *. simpl. apply IH.
    destruct (session_op_keeps_bounds op s) as [-> ->]. done. }
  by apply H.
Qed.

(** * Further properties of the code *)

(** ** Capacity and invariants of a session *)

Lemma full_iff {A} (q : Queue A) :
  maxsize q = 100%Z →
  full q = bool_decide (100 ≤ List.length (items q)).
Proof.
  intros Hm. unfold full, qsize. rewrite Hm. simpl.
  case_bool_decide; [apply Z.leb_le|apply Z.leb_gt]; lia.
Qed.

Lemma enqueue_events_from (events : list string) (s : SSESession) (room : nat) :
  closed s = false →
  maxsize (event_queue s) = 100%Z →
  List.length (items (event_queue s)) + room = 100 →
  let r := enqueue_all (map EnqueueEvent events) s in
  r.1.1 = repeat true (min (List.length events) room)
          ++ repeat false (List.length events - room)
  ∧ items (event_queue r.1.2) = items (event_queue s) ++ take room events
  ∧ notification_queue r.1.2 = notification_queue s
  ∧ closed r.1.2 = false
  ∧ session_id r.1.2 = session_id s
  ∧ warnings r.2 = List.length events - room.
Proof.
  revert s room. induction events as [|e events IH]; intros s room Hc Hm Hl; simpl.
  - rewrite take_nil, app_nil_r. done.
  - unfold send_event, put_nowait. rewrite Hc, (full_iff _ Hm).
    case_bool_decide as Hfull.
    + assert (room = 0) as -> by lia.
      specialize (IH s 0 Hc Hm Hl). simpl in IH.
      destruct (enqueue_all (map EnqueueEvent events) s) as [[rs s2] efs2].
      simpl in *. destruct IH as (-> & -> & -> & -> & -> & Hw).
      rewrite Nat.min_0_r, Nat.sub_0_r in *. simpl in *.
      unfold warnings in *. simpl. rewrite Hw. done.
    + destruct room as [|room]; [lia|].
      set (s1 := mkSession (session_id s)
                           (mkQueue (items (event_queue s) ++ [e]) (maxsize (event_queue s)))
                           (notification_queue s) (initialized s) false).
      assert (List.length (items (event_queue s1)) + room = 100) as Hl1.
      { simpl. rewrite List.length_app. simpl. lia. }
      specialize (IH s1 room eq_refl Hm Hl1). simpl in IH.
      destruct (enqueue_all (map EnqueueEvent events) s1) as [[rs s2] efs2].
      simpl in *. destruct IH as (-> & -> & -> & -> & -> & Hw).
      rewrite <- app_assoc. done.
Qed.

(** X1: a new session takes the first hundred events of any sequence sent
    to it, in order, and turns every later one down with a warning each;
    the notification queue is not touched. *)
Theorem new_session_takes_first_hundred (sid : string) (events : list string) :
  let r := enqueue_all (map EnqueueEvent events) (new_session sid) in
  r.1.1 = repeat true (min (List.length events) 100)
          ++ repeat false (List.length events - 100)
  ∧ items (event_queue r.1.2) = take 100 events
  ∧ items (notification_queue r.1.2) = []
  ∧ warnings r.2 = List.length events - 100.
Proof.
  destruct (enqueue_events_from events (new_session sid) 100)
    as (H1 & H2 & H3 & _ & _ & H6); try done.
  simpl. rewrite H1, H2, H3, H6. done.
Qed.

Lemma put_nowait_length {A} (q q' : Queue A) (x : A) :
  maxsize q = 100%Z →
  put_nowait q x = Some q' →
  List.length (items q') ≤ 100.
Proof.
  intros Hm. unfold put_nowait. rewrite (full_iff _ Hm).
  case_bool_decide; [done|]. intros [= <-]. simpl.
  rewrite List.length_app. simpl. lia.
Qed.

Lemma get_nowait_length {A} (q q' : Queue A) (x : A) :
  get_nowait q = Some (x, q') →
  List.length (items q') ≤ List.length (items q).
Proof.
  unfold get_nowait. destruct (items q) as [|y rest]; [done|].
  intros [= _ <-]. simpl. lia.
Qed.

Lemma session_op_keeps_sizes (op : SessionOp) (s : SSESession) :
  maxsize (event_queue s) = 100%Z →
  maxsize (notification_queue s) = 100%Z →
  List.length (items (event_queue s)) ≤ 100 →
  List.length (items (notification_queue s)) ≤ 100 →
  List.length (items (event_queue (session_op op s))) ≤ 100
  ∧ List.length (items (notification_queue (session_op op s))) ≤ 100
  ∧ session_id (session_op op s) = session_id s.
Proof.
  intros Hme Hmn Hle Hln.
  destruct op as [[event|n]| | | |g request]; simpl.
  - unfold send_event. destruct (closed s); [done|].
    destruct (put_nowait _ _) as [q|] eqn:Hp; simpl; [|done].
    split; [by eapply put_nowait_length|done].
  - unfold send_notification. destruct (closed s); [done|].
    destruct (put_nowait _ _) as [q|] eqn:Hp; simpl; [|done].
    split; [done|]. split; [by eapply put_nowait_length|done].
  - done.
  - unfold take_event. destruct (get_nowait _) as [[e q]|] eqn:Hg; simpl; [|done].
    split; [|done]. apply get_nowait_length in Hg. lia.
  - unfold take_notification. destruct (get_nowait _) as [[e q]|] eqn:Hg; simpl; [|done].
    split; [done|]. split; [|done]. apply get_nowait_length in Hg. lia.
  - destruct (handle_mcp_request_keeps_queues g request s) as (-> & -> & ->). done.
Qed.

(** X2: whatever is done to a session after its creation -- enqueues,
    [close], reads of the queues, routed requests, in any order --, its id
    stays the one it was created with and neither queue ever holds more
    than 100 items. *)
Theorem session_stays_bounded (sid : string) (ops : list SessionOp) :
  let s := session_ops ops (new_session sid) in
  session_id s = sid
  ∧ List.length (items (event_queue s)) ≤ 100
  ∧ List.length (items (notification_queue s)) ≤ 100.
Proof.
  assert (∀ s, session_id s = sid →
               maxsize (event_queue s) = 100%Z →
               maxsize (notification_queue s) = 100%Z →
               List.length (items (event_queue s)) ≤ 100 →
               List.length (items (notification_queue s)) ≤ 100 →
               session_id (session_ops ops s) = sid
               ∧ List.length (items (event_queue (session_ops ops s))) ≤ 100
               ∧ List.length (items (notification_queue (session_ops ops s))) ≤ 100) as H.
  { induction ops as [|op ops IH]; intros s Hid Hme Hmn Hle Hln; [done|].
    unfold session_ops in *. simpl.
    destruct (session_op_keeps_bounds op s) as [Hbe Hbn].
    destruct (session_op_keeps_sizes op s Hme Hmn Hle Hln) as (H1 & H2 & H3).
    apply IH; congruence. }
  apply H; simpl; try done; lia.
Qed.

(** ** The main loop of the stream *)

Lemma run_stream_cons (sig : Signal) (env : World → World)
    (rest : list (Signal * (World → World))) (st : Stream) (w : World) :
  run_stream ((sig, env) :: rest) st w
  = '(st1, w1, frame, efs1) ← sse_event_stream sig st (env w);
    '(st2, w2, frames, efs2) ← run_stream rest st1 w1;
    Some (st2, w2, match frame with Some f => f :: frames | None => frames end,
          efs1 ++ efs2).
Proof. reflexivity. Qed.

Lemma step_get (st : Stream) (w : World) (session session1 : SSESession) (event : string) :
  control st = AtEventWait →
  heap w !! stream_session st = Some session →
  take_event session = Some (event, session1) →
  sse_event_stream Resume st w
  = Some (at_control st AtEventYield, store w (stream_session st) session1, Some event, []).
Proof. intros Hc Hh Ht. unfold sse_event_stream. rewrite Hc, Hh. simpl. by rewrite Ht. Qed.

Lemma step_next (st : Stream) (w : World) (session : SSESession) :
  control st = AtEventYield ∨ control st = AtKeepAliveYield →
  heap w !! stream_session st = Some session →
  closed session = false →
  sse_event_stream Resume st w = Some (at_control st AtEventWait, w, None, []).
Proof.
  intros Hc Hh Hcl. unfold sse_event_stream.
  destruct Hc as [Hc|Hc]; rewrite Hc; unfold loop_test; rewrite Hh; simpl; by rewrite Hcl.
Qed.

Lemma step_timeout (st : Stream) (w : World) :
  control st = AtEventWait →
  sse_event_stream (Throw TimeoutError) st w
  = Some (at_control st AtKeepAliveYield, w, Some keep_alive_frame, []).
Proof. intros Hc. unfold sse_event_stream. by rewrite Hc. Qed.

(** X3: the main loop writes the queued events to the stream in the order
    they were enqueued.  With the stream waiting on an open session whose
    raw-event queue starts with [events], as many turns of the loop yield
    exactly [events], in order, with no other effect; the rest of the
    queue stays, and nothing else in the world changes. *)
Theorem wire_order (events rest : list string) (st : Stream) (w : World)
    (session : SSESession) :
  control st = AtEventWait →
  heap w !! stream_session st = Some session →
  closed session = false →
  items (event_queue session) = events ++ rest →
  run_stream (delivery_script (List.length events)) st w
  = Some (st,
          (if events is [] then w
           else store w (stream_session st)
                      (mkSession (session_id session)
                                 (mkQueue rest (maxsize (event_queue session)))
                                 (notification_queue session) (initialized session)
                                 (closed session))),
          events, []).
Proof.
  revert w session. induction events as [|e events IH]; intros w session Hc Hh Hcl Hi.
  - reflexivity.
  - destruct st as [a url c t]. simpl in Hc, Hh. subst c.
    set (st := mkStream a url AtEventWait t).
    set (session1 := mkSession (session_id session)
                               (mkQueue (events ++ rest) (maxsize (event_queue session)))
                               (notification_queue session) (initialized session)
                               (closed session)).
    assert (take_event session = Some (e, session1)) as Ht.
    { unfold take_event, get_nowait. rewrite Hi. reflexivity. }
    change (delivery_script (List.length (e :: events)))
      with (quiet Resume :: quiet Resume :: delivery_script (List.length events)).
    unfold quiet. rewrite run_stream_cons.
    rewrite (step_get st w session session1 e eq_refl Hh Ht).
    cbn -[run_stream sse_event_stream]. rewrite run_stream_cons.
    rewrite (step_next (at_control st AtEventYield) (store w a session1) session1);
      [|by left|apply lookup_insert_eq|done].
    cbn -[run_stream sse_event_stream].
    change (at_control (at_control st AtEventYield) AtEventWait) with st.
    subst st.
    rewrite (IH (store w a session1) session1 eq_refl);
      [|apply lookup_insert_eq|done|done].
    simpl. destruct events as [|e' events]; [done|].
    unfold store. simpl. by rewrite insert_insert_eq.
Qed.

Lemma wire_order_witness :
  let session := mkSession "s1" (mkQueue ["a"; "b"; "c"] 100) (new_queue 100) false false in
  let w := mkWorld {[0 := session]} {["s1" := 0]} in
  let st := mkStream 0 "http://127.0.0.1:8008" AtEventWait (Some TaskRunning) in
  control st = AtEventWait
  ∧ heap w !! stream_session st = Some session
  ∧ closed session = false
  ∧ items (event_queue session) = ["a"; "b"] ++ ["c"]
  ∧ ∃ w', run_stream (delivery_script 2) st w = Some (st, w', ["a"; "b"], []).
Proof.
  split; [reflexivity|]. split; [reflexivity|]. split; [reflexivity|].
  split; [reflexivity|]. eexists.
  apply (wire_order ["a"; "b"] ["c"]
           (mkStream 0 "http://127.0.0.1:8008" AtEventWait (Some TaskRunning))
           (mkWorld {[0 := mkSession "s1" (mkQueue ["a"; "b"; "c"] 100) (new_queue 100)
                                     false false]}
                    {["s1" := 0]})
           (mkSession "s1" (mkQueue ["a"; "b"; "c"] 100) (new_queue 100) false false));
    reflexivity.
Defined.

(** X4: an idle stream only keeps alive.  With the stream waiting on an
    open session, any number of timeouts of the wait yields that many
    keep-alive frames and nothing else: no effect, the world unchanged, the
    stream back at its wait, the session still registered and open. *)
Theorem idle_stream_keeps_alive (n : nat) (st : Stream) (w : World) (session : SSESession) :
  control st = AtEventWait →
  heap w !! stream_session st = Some session →
  closed session = false →
  run_stream (idle_script n) st w = Some (st, w, repeat keep_alive_frame n, []).
Proof.
  intros Hc Hh Hcl. destruct st as [a url c t]. simpl in Hc, Hh. subst c.
  induction n as [|n IH]; [reflexivity|].
  change (idle_script (S n))
    with (quiet (Throw TimeoutError) :: quiet Resume :: idle_script n).
  unfold quiet. rewrite run_stream_cons, step_timeout by done.
  cbn -[run_stream sse_event_stream]. rewrite run_stream_cons.
  rewrite (step_next _ w session); [|by right|done|done].
  cbn -[run_stream sse_event_stream].
  change (at_control (at_control (mkStream a url AtEventWait t) AtKeepAliveYield) AtEventWait)
    with (mkStream a url AtEventWait t).
  rewrite IH. reflexivity.
Qed.

Lemma idle_stream_keeps_alive_witness :
  let session := new_session "s1" in
  let w := mkWorld {[0 := session]} {["s1" := 0]} in
  let st := mkStream 0 "http://127.0.0.1:8008" AtEventWait (Some TaskRunning) in
  control st = AtEventWait
  ∧ heap w !! stream_session st = Some session
  ∧ closed session = false
  ∧ run_stream (idle_script 3) st w
    = Some (st, w, [keep_alive_frame; keep_alive_frame; keep_alive_frame], []).
Proof.
  split; [reflexivity|]. split; [reflexivity|]. split; [reflexivity|].
  apply (idle_stream_keeps_alive 3
           (mkStream 0 "http://127.0.0.1:8008" AtEventWait (Some TaskRunning))
           (mkWorld {[0 := new_session "s1"]} {["s1" := 0]})
           (new_session "s1"));
    reflexivity.
Defined.

(** ** The teardown over a whole run *)

Lemma step_teardowns (sig : Signal) (st st' : Stream) (w w' : World)
    (frame : option string) (efs : list Effect) :
  sse_event_stream sig st w = Some (st', w', frame, efs) →
  not_started (control st') = false
  ∧ (ended (control st) = true → st' = st ∧ efs = [])
  ∧ teardowns efs
    = (if ended (control st') && negb (ended (control st)) && negb (not_started (control st))
       then 1 else 0).
Proof.
  intros Hstep. destruct st as [a url c t].
  unfold sse_event_stream in Hstep. simpl in Hstep.
  destruct c; destruct sig as [|[| | |e]];
    unfold loop_except, outer_except, loop_test, clean_up, yield_keep_alive,
           finally_block in Hstep;
    simpl in Hstep;
    repeat match type of Hstep with
           | context [heap w !! a] => destruct (heap w !! a) as [session|]; simpl in Hstep
           | context [if ?b then _ else _] => destruct b
           | context [match take_event ?s with _ => _ end] =>
               destruct (take_event s) as [[? ?]|]
           | context [match sessions w !! ?k with _ => _ end] =>
               destruct (sessions w !! k)
           end;
    try discriminate;
    injection Hstep as <- <- <- <-; simpl; repeat split; intros; done.
Qed.

Lemma run_ended (script : list (Signal * (World → World))) (st st' : Stream) (w w' : World)
    (frames : list string) (efs : list Effect) :
  ended (control st) = true →
  run_stream script st w = Some (st', w', frames, efs) →
  st' = st ∧ efs = [] ∧ frames = [].
Proof.
  revert w st' w' frames efs.
  induction script as [|[sig env] script IH]; intros w st' w' frames efs He Hrun.
  - by injection Hrun as <- <- <- <-.
  - rewrite run_stream_cons, (ended_absorbing sig st (env w) He) in Hrun.
    cbn -[run_stream] in Hrun.
    destruct (run_stream script st (env w)) as [[[[st2 w2] fs2] e2]|] eqn:Hr; [|done].
    destruct (IH _ _ _ _ _ He Hr) as (-> & -> & ->).
    by injection Hrun as <- <- <- <-.
Qed.

(** X5: over any run of the stream, whatever is raised into it and
    whatever the rest of the process does to the world in between, the
    teardown ([session.close()] in [finally]) runs at most once; it has not
    run while the generator has not ended, and it has run exactly once when
    a generator that was started and had not ended has ended. *)
Theorem teardown_at_most_once
    (script : list (Signal * (World → World))) (st st' : Stream) (w w' : World)
    (frames : list string) (efs : list Effect) :
  run_stream script st w = Some (st', w', frames, efs) →
  teardowns efs ≤ 1
  ∧ (ended (control st') = false → teardowns efs = 0)
  ∧ (not_started (control st) = false → ended (control st) = false →
     ended (control st') = true → teardowns efs = 1).
Proof.
  revert st w st' w' frames efs.
  induction script as [|[sig env] script IH]; intros st w st' w' frames efs Hrun.
  - injection Hrun as <- <- <- <-. change (teardowns []) with 0.
    repeat split; [lia|congruence].
  - rewrite run_stream_cons in Hrun.
    destruct (sse_event_stream sig st (env w)) as [[[[st1 w1] f1] e1]|] eqn:Hs; [|done].
    cbn -[run_stream] in Hrun.
    destruct (run_stream script st1 w1) as [[[[st2 w2] fs2] e2]|] eqn:Hr; [|done].
    injection Hrun as <- <- <- <-.
    destruct (step_teardowns _ _ _ _ _ _ _ Hs) as (Hns & Habs & Ht).
    destruct (IH _ _ _ _ _ _ Hr) as (IH1 & IH2 & IH3).
    rewrite teardowns_app, Ht.
    destruct (ended (control st1)) eqn:He1.
    + destruct (run_ended _ _ _ _ _ _ _ He1 Hr) as (-> & -> & _).
      change (teardowns []) with 0.
      destruct (ended (control st)) eqn:He; destruct (not_started (control st)) eqn:Hn;
        simpl; repeat split; intros; try lia; try congruence.
    + simpl. repeat split; intros; try lia; auto.
Qed.

Lemma teardown_at_most_once_witness :
  let w := mkWorld {[0 := new_session "s1"]} {["s1" := 0]} in
  let st := mkStream 0 "http://127.0.0.1:8008" NotStarted None in
  let script := [quiet Resume; quiet Resume; quiet (Throw TimeoutError);
                 quiet (Throw (OtherException "broken pipe"));
                 quiet (Throw CancelledError); quiet Resume] in
  ∃ st' w' frames efs,
    run_stream script st w = Some (st', w', frames, efs)
    ∧ control st' = Finished
    ∧ teardowns efs ≤ 1.
Proof.
  intros w st script.
  destruct (run_stream script st w) as [[[[st' w'] frames] efs]|] eqn:Hr;
    [|vm_compute in Hr; discriminate].
  exists st', w', frames, efs. split; [reflexivity|].
  split; [vm_compute in Hr; by injection Hr as <- _ _ _|].
  exact (proj1 (teardown_at_most_once script st st' w w' frames efs Hr)).
Defined.

(** ** The call endpoint and the registry *)

(** X6: a call for a session id that is not registered, or whose session
    is closed, is refused with status 400 before the body is looked at and
    before the endpoint is ever suspended: whatever the body, the router is
    not run, nothing is enqueued or logged, and the world is unchanged. *)
Theorem message_endpoint_refuses (g : Globals) (env1 env2 : World → World) (w : World)
    (sessionId : string) (body : string + JSONRPCRequest) :
  sessions w !! sessionId = None
  ∨ (∃ a session, sessions w !! sessionId = Some a
                  ∧ heap w !! a = Some session ∧ closed session = true) →
  message_endpoint g env1 env2 w sessionId body
  = Some (HTTPError 400 (if sessions w !! sessionId is None
                         then "Invalid session ID" else "Session closed"),
          w, []).
Proof.
  intros [Hs|(a & session & Hs & Hh & Hc)]; unfold message_endpoint; rewrite Hs.
  - done.
  - rewrite Hh. simpl. by rewrite Hc.
Qed.

Lemma message_endpoint_refuses_witness :
  let g := mkGlobals (mkSettings "token" "42" "127.0.0.1" 8008 false) None in
  let w := mkWorld {[0 := close (new_session "s1")]} {["s1" := 0]} in
  let request := mkRequest "2.0" (JInt 1) "initialize" None in
  message_endpoint g undisturbed undisturbed w "s1" (inr request)
  = Some (HTTPError 400 "Session closed", w, [])
  ∧ message_endpoint g undisturbed undisturbed w "s2" (inr request)
    = Some (HTTPError 400 "Invalid session ID", w, []).
Proof.
  split.
  - eapply eq_trans.
    + apply (message_endpoint_refuses
               (mkGlobals (mkSettings "token" "42" "127.0.0.1" 8008 false) None)
               undisturbed undisturbed
               (mkWorld {[0 := close (new_session "s1")]} {["s1" := 0]}) "s1").
      right. exists 0, (close (new_session "s1")). repeat split; reflexivity.
    + vm_compute. reflexivity.
  - eapply eq_trans.
    + apply (message_endpoint_refuses
               (mkGlobals (mkSettings "token" "42" "127.0.0.1" 8008 false) None)
               undisturbed undisturbed
               (mkWorld {[0 := close (new_session "s1")]} {["s1" := 0]}) "s2").
      left. reflexivity.
    + vm_compute. reflexivity.
Defined.

(** X7: once a started stream has ended, by whatever route, its session
    is gone for callers: the session object is closed, so that it takes no
    event any more, and a call with its id is refused as an invalid
    session. *)
Theorem ended_stream_refuses_calls
    (g : Globals) (env1 env2 : World → World) (sig : Signal) (st st' : Stream)
    (w w' : World) (session : SSESession)
    (frame : option string) (efs : list Effect) (body : string + JSONRPCRequest)
    (event : string) :
  heap w !! stream_session st = Some session →
  not_started (control st) = false →
  ended (control st) = false →
  sse_event_stream sig st w = Some (st', w', frame, efs) →
  ended (control st') = true →
  message_endpoint g env1 env2 w' (session_id session) body
  = Some (HTTPError 400 "Invalid session ID", w', [])
  ∧ ∃ session', heap w' !! stream_session st = Some session'
                ∧ send_event session' event = (false, session', []).
Proof.
  intros Hh Hns He Hstep He'.
  destruct (teardown_on_every_exit sig st st' w w' session frame efs Hh) as (_ & H2 & H3);
    try done.
  { by destruct (control st). }
  split.
  - unfold message_endpoint. by rewrite H3.
  - exists (close session). split; [done|]. by apply send_event_closed.
Qed.

Lemma ended_stream_refuses_calls_witness :
  let g := mkGlobals (mkSettings "token" "42" "127.0.0.1" 8008 false) None in
  let w := mkWorld {[0 := new_session "s1"]} {["s1" := 0]} in
  let st := mkStream 0 "http://127.0.0.1:8008" AtKeepAliveYield (Some TaskRunning) in
  let request := mkRequest "2.0" (JInt 1) "tools/list" None in
  ∃ st' w' frame efs,
    sse_event_stream (Throw GeneratorExit) st w = Some (st', w', frame, efs)
    ∧ ended (control st') = true
    ∧ message_endpoint g undisturbed undisturbed w' "s1" (inr request)
      = Some (HTTPError 400 "Invalid session ID", w', []).
Proof.
  intros g w st request.
  destruct (sse_event_stream (Throw GeneratorExit) st w)
    as [[[[st' w'] frame] efs]|] eqn:Hs; [|vm_compute in Hs; discriminate].
  assert (ended (control st') = true) as He.
  { vm_compute in Hs. by injection Hs as <- _ _ _. }
  exists st', w', frame, efs. split; [reflexivity|]. split; [exact He|].
  exact (proj1 (ended_stream_refuses_calls g undisturbed undisturbed
                  (Throw GeneratorExit) st st' w w'
                  (new_session "s1") frame efs (inr request) "late"
                  eq_refl eq_refl eq_refl Hs He)).
Defined.

Lemma registered_address (w : World) (sid : string) (a : nat) :
  sessions w !! sid = Some a → a ∈ (map_to_list (sessions w)).*2.
Proof.
  intros Hs. apply list_elem_of_fmap. exists (sid, a). split; [done|].
  by apply elem_of_map_to_list.
Qed.

(** X8: the shutdown of [lifespan] closes every registered session and
    nothing more: the registry keeps its entries, each registered session
    keeps its id and the contents of both queues, and from then on a call
    with a registered id is refused as closed. *)
Theorem shutdown_closes_registered
    (g : Globals) (env1 env2 : World → World) (w : World) (sid : string) (a : nat)
    (session : SSESession) (body : string + JSONRPCRequest) :
  sessions w !! sid = Some a →
  heap w !! a = Some session →
  let w' := (lifespan_shutdown w).1 in
  sessions w' = sessions w
  ∧ heap w' !! a = Some (close session)
  ∧ event_queue (close session) = event_queue session
  ∧ notification_queue (close session) = notification_queue session
  ∧ message_endpoint g env1 env2 w' sid body
    = Some (HTTPError 400 "Session closed", w', []).
Proof.
  intros Hs Hh w'.
  assert (heap w' !! a = Some (close session)) as Hh'.
  { subst w'. unfold lifespan_shutdown. simpl.
    rewrite map_lookup_imap, Hh. simpl.
    by rewrite (decide_True _ _ (registered_address w sid a Hs)). }
  repeat split; try done.
  unfold message_endpoint.
  change (sessions w') with (sessions w). by rewrite Hs, Hh'.
Qed.

Lemma shutdown_closes_registered_witness :
  let g := mkGlobals (mkSettings "token" "42" "127.0.0.1" 8008 false) None in
  let w := mkWorld {[0 := new_session "s1"; 1 := new_session "s2"]}
                   {["s1" := 0; "s2" := 1]} in
  sessions w !! "s2" = Some 1
  ∧ heap w !! 1 = Some (new_session "s2")
  ∧ heap (lifespan_shutdown w).1 !! 1 = Some (close (new_session "s2")).
Proof.
  split; [vm_compute; reflexivity|]. split; [vm_compute; reflexivity|].
  refine (proj1 (proj2 (shutdown_closes_registered
                          (mkGlobals (mkSettings "token" "42" "127.0.0.1" 8008 false) None)
                          undisturbed undisturbed
                          (mkWorld {[0 := new_session "s1"; 1 := new_session "s2"]}
                                   {["s1" := 0; "s2" := 1]})
                          "s2" 1 (new_session "s2") (inl "no body") _ _)));
    vm_compute; reflexivity.
Defined.

(** A session object that is not registered is left alone by the shutdown. *)
Lemma shutdown_skips_unregistered (w : World) (a : nat) (session : SSESession) :
  heap w !! a = Some session →
  (∀ sid, sessions w !! sid ≠ Some a) →
  heap (lifespan_shutdown w).1 !! a = Some session.
Proof.
  intros Hh Hn. unfold lifespan_shutdown. simpl.
  rewrite map_lookup_imap, Hh. simpl. rewrite decide_False; [done|].
  intros ([sid a'] & Ha & Hin)%list_elem_of_fmap. simpl in Ha. subst a'.
  apply elem_of_map_to_list in Hin. by eapply Hn.
Qed.

(** X9: opening a stream registers a new, open, empty session under its
    id at an address no session object had, so that every existing object
    and every other registry entry is as before; and the first frame the
    stream of that session yields is the endpoint event carrying this id. *)
Theorem sse_endpoint_registers (w : World) (uuid4 base : string) :
  let a := (sse_endpoint w uuid4).1 in
  let w' := (sse_endpoint w uuid4).2 in
  heap w !! a = None
  ∧ sessions w' !! uuid4 = Some a
  ∧ heap w' !! a = Some (new_session uuid4)
  ∧ (∀ a' session, heap w !! a' = Some session → heap w' !! a' = Some session)
  ∧ (∀ sid, sid ≠ uuid4 → sessions w' !! sid = sessions w !! sid)
  ∧ sse_event_stream Resume (mkStream a base NotStarted None) w'
    = Some (mkStream a base AtEndpointYield None, w',
            Some (endpoint_frame base uuid4), []).
Proof.
  intros a w'. subst a w'. unfold sse_endpoint. simpl.
  assert (heap w !! fresh (dom (heap w)) = None) as Hf.
  { apply not_elem_of_dom. apply is_fresh. }
  split; [done|]. split; [apply lookup_insert_eq|].
  split; [apply lookup_insert_eq|]. split; [|split].
  - intros a' session Ha. rewrite lookup_insert_ne; [done|]. congruence.
  - intros sid Hne. by rewrite lookup_insert_ne.
  - unfold sse_event_stream. simpl. by rewrite lookup_insert_eq.
Qed.

(** X10: a call is answered through the stream when its session is
    still open, with an empty raw-event queue, at the moment the router
    has returned -- whatever the other tasks did while the endpoint was
    suspended in the read of the body and in the Telegram call.  The
    endpoint then answers [accepted], and in the world it leaves the next
    event the waiting stream of that session yields is the [message] frame
    of the router's response envelope, after which the queue is empty
    again. *)
Theorem response_reaches_the_stream
    (g : Globals) (env1 env2 : World → World) (w : World) (sessionId : string)
    (st : Stream) (session session0 session2 : SSESession) (request : JSONRPCRequest) :
  sessions w !! sessionId = Some (stream_session st) →
  heap w !! stream_session st = Some session →
  closed session = false →
  heap (env1 w) !! stream_session st = Some session0 →
  let r := handle_mcp_request g request session0 in
  let w2 := after_router env2 (env1 w) (stream_session st) r.1.2 r.2 in
  heap w2 !! stream_session st = Some session2 →
  closed session2 = false →
  items (event_queue session2) = [] →
  control st = AtEventWait →
  ∃ w3 efs w4,
    message_endpoint g env1 env2 w sessionId (inr request) = Some (Accepted, w3, efs)
    ∧ sse_event_stream Resume st w3
      = Some (at_control st AtEventYield, w4,
              Some (message_frame (json_dumps (JObj r.1.1))), [])
    ∧ ∃ session4, heap w4 !! stream_session st = Some session4
                  ∧ items (event_queue session4) = [].
Proof.
  intros Hs Hh Hc Hh0 r w2 Hh2 Hc2 Hi Hctl.
  rewrite (message_endpoint_accepts g env1 env2 w sessionId _ session session0 session2
             request Hs Hh Hc Hh0 Hh2).
  fold r. fold w2.
  set (event := message_frame (json_dumps (JObj r.1.1))).
  pose proof (send_event_outcome session2 event) as Hsi.
  rewrite Hc2, (empty_queue_not_full _ Hi), Hi in Hsi. simpl in Hsi.
  destruct (send_event session2 event) as [[b session3] efs2]. simpl in *.
  eexists _, _, _. split; [reflexivity|].
  assert (take_event session3
          = Some (event, mkSession (session_id session3)
                                   (mkQueue [] (maxsize (event_queue session3)))
                                   (notification_queue session3) (initialized session3)
                                   (closed session3))) as Ht.
  { unfold take_event, get_nowait. by rewrite Hsi. }
  split.
  - eapply step_get; [exact Hctl|apply lookup_insert_eq|exact Ht].
  - eexists. split; [apply lookup_insert_eq|done].
Qed.

Lemma response_reaches_the_stream_witness :
  let g := mkGlobals (mkSettings "token" "42" "127.0.0.1" 8008 false) None in
  let w := mkWorld {[0 := new_session "s1"]} {["s1" := 0]} in
  let st := mkStream 0 "http://127.0.0.1:8008" AtEventWait (Some TaskRunning) in
  let request := mkRequest "2.0" (JInt 1) "initialize" None in
  sessions w !! "s1" = Some (stream_session st)
  ∧ heap w !! stream_session st = Some (new_session "s1")
  ∧ ∃ w1 efs w2 frame,
      message_endpoint g undisturbed undisturbed w "s1" (inr request)
      = Some (Accepted, w1, efs)
      ∧ sse_event_stream Resume st w1 = Some (at_control st AtEventYield, w2, Some frame, [])
      ∧ frame = message_frame
                  (json_dumps
                     (JObj (success_envelope (JInt 1)
                              (handle_initialize [] (new_session "s1")).1.1))).
Proof.
  split; [vm_compute; reflexivity|]. split; [vm_compute; reflexivity|].
  destruct (response_reaches_the_stream
              (mkGlobals (mkSettings "token" "42" "127.0.0.1" 8008 false) None)
              undisturbed undisturbed
              (mkWorld {[0 := new_session "s1"]} {["s1" := 0]}) "s1"
              (mkStream 0 "http://127.0.0.1:8008" AtEventWait (Some TaskRunning))
              (new_session "s1") (new_session "s1")
              (handle_mcp_request
                 (mkGlobals (mkSettings "token" "42" "127.0.0.1" 8008 false) None)
                 (mkRequest "2.0" (JInt 1) "initialize" None) (new_session "s1")).1.2
              (mkRequest "2.0" (JInt 1) "initialize" None))
    as (w1 & efs & w2 & H1 & H2 & _);
    [vm_compute; reflexivity | vm_compute; reflexivity | reflexivity
    | vm_compute; reflexivity | vm_compute; reflexivity | reflexivity | reflexivity
    | reflexivity |].
  exists w1, efs, w2. eexists. split; [exact H1|]. split; [exact H2|reflexivity].
Defined.

(** ** What a request does *)

(** X11: of all requests only [initialize] touches the session, and it sets
    [initialized] and nothing else; [tools/list], [tools/call] and unknown
    methods leave the session exactly as it was, whatever their outcome.
    A second [initialize] therefore changes nothing. *)
Theorem only_initialize_touches_session
    (g : Globals) (request : JSONRPCRequest) (s : SSESession) :
  (handle_mcp_request g request s).1.2
  = (if String.eqb (request_method request) "initialize"
     then mkSession (session_id s) (event_queue s) (notification_queue s) true (closed s)
     else s)
  ∧ (handle_mcp_request g request (handle_mcp_request g request s).1.2).1.2
    = (handle_mcp_request g request s).1.2.
Proof.
  assert (∀ s0, (handle_mcp_request g request s0).1.2
                = (if String.eqb (request_method request) "initialize"
                   then mkSession (session_id s0) (event_queue s0) (notification_queue s0)
                                  true (closed s0)
                   else s0)) as H.
  { intros s0. unfold handle_mcp_request, dispatch.
    destruct (String.eqb (request_method request) "initialize"); [done|].
    destruct (String.eqb (request_method request) "tools/list"); [done|].
    destruct (String.eqb (request_method request) "tools/call"); [|done].
    destruct (handle_tools_call g (params_or_empty request) s0)
      as [[result|[status detail|e]] efs]; done. }
  split; [apply H|]. rewrite !H.
  by destruct (String.eqb (request_method request) "initialize").
Qed.

Lemma handle_send_message_outcomes (g : Globals) (params : JSON) :
  (telegram_bot g = None
   ∧ handle_send_message g params
     = raise (HTTPException 500 "Telegram bot not initialized"))
  ∨ (∃ e, handle_send_message g params = raise (PyError e))
  ∨ handle_send_message g params = raise (HTTPException 400 "Missing 'message' parameter")
  ∨ (∃ bot d, telegram_bot g = Some bot ∧ params = JObj d
              ∧ truthy (py_get d "message") = true).
Proof.
  destruct (telegram_bot g) as [bot|] eqn:Hb;
    [|left; split; [done|by apply handle_send_message_no_bot]].
  right. destruct params as [|b|n|s|l|d];
    try (left; unfold handle_send_message; rewrite Hb; by eexists).
  right. destruct (truthy (py_get d "message")) eqn:Ht.
  - right. eauto 10.
  - left. by apply (handle_send_message_falsy g bot).
Qed.

Lemma handle_tools_call_outcomes (g : Globals) (params : PyDict) (session : SSESession) :
  (∃ e, handle_tools_call g params session = raise (PyError e))
  ∨ (∃ shown, handle_tools_call g params session = raise (unknown_tool shown))
  ∨ py_get params "name" = JStr "send_message".
Proof.
  unfold handle_tools_call.
  destruct (py_get params "name") as [|b|n|s|l|o];
    try (left; by eexists); try (right; left; by eexists).
  unfold TOOLS. cbn [tools_lookup].
  destruct (String.eqb_spec "send_message" s) as [<-|Hne].
  - right. right. reflexivity.
  - right. left. by eexists.
Qed.

(** X12: with the bot connected, the outcome of a [tools/call] of the send
    tool with a truthy [message] is decided by the delivery alone.  If the
    message is sent, the result is one text content item holding the JSON
    (indent 2) of [success], the message id, the chat id and the text; if
    the delivery raises, the answer is code 500 with the exception's text,
    which is also logged.  Either way there is one Telegram call, to the
    configured chat, and the session is untouched. *)
Theorem send_call_outcome
    (g : Globals) (bot : Bot) (request : JSONRPCRequest) (session : SSESession)
    (d : PyDict) :
  telegram_bot g = Some bot →
  request_method request = "tools/call" →
  py_get (params_or_empty request) "name" = JStr "send_message" →
  py_get_default (params_or_empty request) "arguments" (JObj []) = JObj d →
  truthy (py_get d "message") = true →
  let chat := telegram_chat_id (settings g) in
  let message := py_get d "message" in
  let mode := forwarded_parse_mode d in
  handle_mcp_request g request session
  = match send_message bot chat message mode with
    | Sent m =>
        (success_envelope (request_id request)
           [("content",
             JList [JObj [("type", JStr "text");
                          ("text",
                           JStr (json_dumps_indent 2
                                   (JObj [("success", JBool true);
                                          ("message_id", JInt (message_id m));
                                          ("chat_id", JInt (sent_chat_id m));
                                          ("text", opt_str (sent_text m))])))]])],
         session,
         [ToolHandlerCall "send_message" (JObj d); TelegramSend chat message mode])
    | SendError e =>
        (error_envelope (request_id request) 500 ("Failed to send message: " +:+ e),
         session,
         [ToolHandlerCall "send_message" (JObj d); TelegramSend chat message mode;
          Log ERROR ("Failed to send message: " +:+ e)])
    end.
Proof.
  intros Hb Hm Hn Ha Ht chat message mode. rewrite (route_tools_call _ _ _ Hm).
  rewrite (handle_tools_call_send _ _ _ Hn), Ha.
  rewrite (handle_send_message_truthy _ _ _ Hb Ht). simpl.
  fold chat message mode. by destruct (send_message bot chat message mode).
Qed.

Lemma send_call_outcome_witness :
  let bot := mkBot (fun _ _ _ => SendError "chat not found") in
  let g := mkGlobals (mkSettings "token" "42" "127.0.0.1" 8008 false) (Some bot) in
  let d := [("message", JStr "hi")] in
  let request := mkRequest "2.0" (JInt 2) "tools/call"
                           (Some [("name", JStr "send_message"); ("arguments", JObj d)]) in
  telegram_bot g = Some bot
  ∧ truthy (py_get d "message") = true
  ∧ handle_mcp_request g request (new_session "s1")
    = (error_envelope (JInt 2) 500 "Failed to send message: chat not found",
       new_session "s1",
       [ToolHandlerCall "send_message" (JObj d); TelegramSend "42" (JStr "hi") "Markdown";
        Log ERROR "Failed to send message: chat not found"]).
Proof.
  split; [reflexivity|]. split; [reflexivity|].
  apply (send_call_outcome
           (mkGlobals (mkSettings "token" "42" "127.0.0.1" 8008 false)
                      (Some (mkBot (fun _ _ _ => SendError "chat not found"))))
           (mkBot (fun _ _ _ => SendError "chat not found"))
           (mkRequest "2.0" (JInt 2) "tools/call"
                      (Some [("name", JStr "send_message");
                             ("arguments", JObj [("message", JStr "hi")])]))
           (new_session "s1") [("message", JStr "hi")]);
    reflexivity.
Defined.

(** Every way a [tools/call] can end, with its envelope, the session and
    the effects. *)
Lemma tools_call_classified (g : Globals) (request : JSONRPCRequest) (s : SSESession) :
  request_method request = "tools/call" →
  let id := request_id request in
  let arguments := py_get_default (params_or_empty request) "arguments" (JObj []) in
  let r := handle_mcp_request g request s in
  (∃ e, r = (error_envelope id (-32603) ("Internal error: " +:+ e), s,
             [Log ERROR ("Error handling MCP request tools/call: " +:+ e)]))
  ∨ (∃ shown, r = (error_envelope id 400 ("Unknown tool: " +:+ shown), s, []))
  ∨ (py_get (params_or_empty request) "name" = JStr "send_message"
     ∧ ((telegram_bot g = None
         ∧ r = (error_envelope id 500 "Telegram bot not initialized", s,
                [ToolHandlerCall "send_message" arguments]))
        ∨ (∃ e, r = (error_envelope id (-32603) ("Internal error: " +:+ e), s,
                     [ToolHandlerCall "send_message" arguments;
                      Log ERROR ("Error handling MCP request tools/call: " +:+ e)]))
        ∨ r = (error_envelope id 400 "Missing 'message' parameter", s,
               [ToolHandlerCall "send_message" arguments])
        ∨ (∃ bot d, telegram_bot g = Some bot ∧ arguments = JObj d
                    ∧ truthy (py_get d "message") = true
                    ∧ ((∃ result,
                          r = (success_envelope id result, s,
                               [ToolHandlerCall "send_message" arguments;
                                TelegramSend (telegram_chat_id (settings g))
                                             (py_get d "message") (forwarded_parse_mode d)]))
                       ∨ (∃ e,
                            r = (error_envelope id 500 ("Failed to send message: " +:+ e), s,
                                 [ToolHandlerCall "send_message" arguments;
                                  TelegramSend (telegram_chat_id (settings g))
                                               (py_get d "message") (forwarded_parse_mode d);
                                  Log ERROR ("Failed to send message: " +:+ e)])))))).
Proof.
  intros Hm id arguments r. subst r. rewrite (route_tools_call _ _ _ Hm).
  destruct (handle_tools_call_outcomes g (params_or_empty request) s)
    as [[e ->]|[[shown ->]|Hn]].
  - left. by exists e.
  - right. left. by exists shown.
  - right. right. split; [done|].
    rewrite (handle_tools_call_send _ _ _ Hn). fold arguments.
    destruct (handle_send_message_outcomes g arguments)
      as [[Hb ->]|[[e ->]|[->|(bot & d & Hb & Ha & Ht)]]].
    + by left.
    + right. left. by exists e.
    + right. right. by left.
    + right. right. right. exists bot, d. split; [done|]. split; [done|]. split; [done|].
      rewrite Ha, (handle_send_message_truthy _ _ _ Hb Ht). simpl.
      destruct (send_message bot _ _ _) as [m|e]; simpl; [left|right]; by eexists.
Qed.

Lemma error_code_error (id : JSON) (code : Z) (message : string) :
  error_code (error_envelope id code message) = Some code.
Proof. reflexivity. Qed.

Lemma error_code_success (id : JSON) (result : PyDict) :
  error_code (success_envelope id result) = None.
Proof. reflexivity. Qed.

(** X13: the router answers with four error codes only.  -32601 is given
    exactly for the methods it does not know; every other error comes from
    [tools/call] and carries 400, 500 or -32603; [initialize] and
    [tools/list] never fail. *)
Theorem router_error_codes
    (g : Globals) (request : JSONRPCRequest) (s : SSESession) (code : Z) :
  error_code (handle_mcp_request g request s).1.1 = Some code →
  (code = (-32601)%Z
   ∧ request_method request ≠ "initialize"
   ∧ request_method request ≠ "tools/list"
   ∧ request_method request ≠ "tools/call")
  ∨ (request_method request = "tools/call"
     ∧ (code = 400%Z ∨ code = 500%Z ∨ code = (-32603)%Z)).
Proof.
  destruct (String.eqb_spec (request_method request) "tools/call") as [Hm|Hm].
  - intros Hc. right. split; [done|].
    destruct (tools_call_classified g request s Hm)
      as [[e H]|[[shown H]|(_ & [[_ H]|[[e H]|[H|(bot & d & _ & _ & _ & [[res H]|[e H]])]]])]];
      rewrite H in Hc; simpl in Hc;
      rewrite ?error_code_error, ?error_code_success in Hc;
      try discriminate; injection Hc as <-; auto.
  - unfold handle_mcp_request, dispatch. apply String.eqb_neq in Hm as Hm'. rewrite Hm'.
    destruct (String.eqb_spec (request_method request) "initialize") as [Hi|Hi];
      [intros [=]|].
    destruct (String.eqb_spec (request_method request) "tools/list") as [Hl|Hl];
      [intros [=]|].
    simpl. rewrite error_code_error. intros [= <-]. by left.
Qed.

Lemma router_error_codes_witness :
  let g := mkGlobals (mkSettings "token" "42" "127.0.0.1" 8008 false) None in
  let request := mkRequest "2.0" JNull "tools/call"
                           (Some [("name", JStr "send_message")]) in
  error_code (handle_mcp_request g request (new_session "s1")).1.1 = Some 500%Z
  ∧ request_method request = "tools/call".
Proof.
  split; [reflexivity|].
  destruct (router_error_codes
              (mkGlobals (mkSettings "token" "42" "127.0.0.1" 8008 false) None)
              (mkRequest "2.0" JNull "tools/call" (Some [("name", JStr "send_message")]))
              (new_session "s1") 500 eq_refl)
    as [[H _]|[H _]]; [discriminate H|exact H].
Defined.

(** X14: the recipient is not the caller's to choose.  Whatever the
    request, the router makes at most one Telegram call, and only for a
    [tools/call] of [send_message] whose arguments are a mapping with a
    truthy [message]; the call goes to the configured chat id with that
    message as text, whatever else the arguments hold. *)
Theorem telegram_only_to_configured_chat
    (g : Globals) (request : JSONRPCRequest) (s : SSESession) :
  let efs := (handle_mcp_request g request s).2 in
  List.length (telegram_calls efs) ≤ 1
  ∧ ∀ chat text mode,
      TelegramSend chat text mode ∈ efs →
      chat = telegram_chat_id (settings g)
      ∧ request_method request = "tools/call"
      ∧ py_get (params_or_empty request) "name" = JStr "send_message"
      ∧ ∃ d, py_get_default (params_or_empty request) "arguments" (JObj []) = JObj d
             ∧ text = py_get d "message"
             ∧ truthy text = true
             ∧ mode = forwarded_parse_mode d.
Proof.
  intros efs. subst efs.
  destruct (String.eqb_spec (request_method request) "tools/call") as [Hm|Hm].
  - destruct (tools_call_classified g request s Hm)
      as [[e H]|[[shown H]|(Hn & [[_ H]|[[e H]|[H|(bot & d & _ & Ha & Ht & [[res H]|[e H]])]]])]];
      rewrite H; simpl; (split; [unfold telegram_calls; simpl; lia|]);
      intros chat text mode Hin;
      repeat (apply elem_of_cons in Hin as [Hin|Hin]; [try discriminate|]);
      try (by apply elem_of_nil in Hin);
      injection Hin as -> -> ->; repeat split; try done; by exists d.
  - unfold handle_mcp_request, dispatch. apply String.eqb_neq in Hm. rewrite Hm.
    destruct (String.eqb (request_method request) "initialize"); simpl;
      [|destruct (String.eqb (request_method request) "tools/list"); simpl];
      (split; [unfold telegram_calls; simpl; lia|]);
      intros chat text mode Hin;
      repeat (apply elem_of_cons in Hin as [Hin|Hin]; [try discriminate|]);
      by apply elem_of_nil in Hin.
Qed.

(** X16: once [lifespan] has started the application -- which it does
    only when the bot was created and answered [get_me()] --, the settings
    are the ones it was given and no request is ever answered with
    [Telegram bot not initialized]. *)
Theorem served_requests_have_a_bot
    (g0 g : Globals) (c : ConnectOutcome) (efs : list Effect)
    (request : JSONRPCRequest) (s : SSESession) :
  lifespan_startup g0 c = (Some g, efs) →
  (∃ bot username, c = Connected bot username ∧ telegram_bot g = Some bot)
  ∧ settings g = settings g0
  ∧ error_message (handle_mcp_request g request s).1.1
    ≠ Some "Telegram bot not initialized".
Proof.
  intros Hl.
  assert (∃ bot username, c = Connected bot username ∧ telegram_bot g = Some bot
                          ∧ settings g = settings g0) as (bot & username & -> & Hb & Hs).
  { unfold lifespan_startup in Hl.
    destruct c as [e|bot e|bot username]; simpl in Hl; simplify_eq.
    by exists bot, username. }
  split; [by exists bot, username|]. split; [done|].
  destruct (handle_mcp_request_shape g request s) as [[r Hr]|(code & message & Hr)].
  { by rewrite Hr. }
  destruct (String.eqb_spec (request_method request) "tools/call") as [Hm|Hm].
  - destruct (tools_call_classified g request s Hm)
      as [[e H]|[[shown H]|(_ & [[Hn _]|[[e H]|[H|(bot' & d & _ & _ & _ & [[res H]|[e H]])]]])]];
      try congruence; rewrite H; simpl; discriminate.
  - unfold handle_mcp_request, dispatch. apply String.eqb_neq in Hm. rewrite Hm.
    destruct (String.eqb (request_method request) "initialize"); [discriminate|].
    destruct (String.eqb (request_method request) "tools/list"); discriminate.
Qed.

Lemma served_requests_have_a_bot_witness :
  let g0 := mkGlobals (mkSettings "token" "42" "127.0.0.1" 8008 false) None in
  let bot := mkBot (fun _ _ _ => Sent (mkSent 1 42 None)) in
  let request := mkRequest "2.0" (JInt 2) "tools/call"
                           (Some [("name", JStr "send_message")]) in
  ∃ g efs,
    lifespan_startup g0 (Connected bot "mcp_bot") = (Some g, efs)
    ∧ error_message (handle_mcp_request g request (new_session "s1")).1.1
      ≠ Some "Telegram bot not initialized".
Proof.
  intros g0 bot request. eexists _, _. split; [reflexivity|].
  refine (proj2 (proj2 (served_requests_have_a_bot g0 _ (Connected bot "mcp_bot") _
                          request (new_session "s1") eq_refl))).
Defined.

(** ** Isolation between sessions *)

(** X17: a call touches one session only.  Whatever the endpoint answers
    and whatever the other tasks do while it is suspended, its own writes
    go to the session object registered under the id of the call: the
    registry and every other session object are as the other tasks left
    them -- as before, when nothing else ran meanwhile. *)
Theorem message_endpoint_isolated
    (g : Globals) (env1 env2 : World → World) (w w' : World) (sessionId : string)
    (body : string + JSONRPCRequest) (result : HTTPResult) (efs : list Effect) :
  message_endpoint g env1 env2 w sessionId body = Some (result, w', efs) →
  (∃ others,
     (others = w ∨ others = env1 w
      ∨ ∃ a s, sessions w !! sessionId = Some a
               ∧ (others = store (env1 w) a s ∨ others = env2 (store (env1 w) a s)))
     ∧ sessions w' = sessions others
     ∧ ∀ a, sessions w !! sessionId ≠ Some a → heap w' !! a = heap others !! a)
  ∧ (env1 = undisturbed → env2 = undisturbed →
     sessions w' = sessions w
     ∧ ∀ a, sessions w !! sessionId ≠ Some a → heap w' !! a = heap w !! a).
Proof.
  intros Hrun.
  assert (∃ others,
            (others = w ∨ others = env1 w
             ∨ ∃ a s, sessions w !! sessionId = Some a
                      ∧ (others = store (env1 w) a s ∨ others = env2 (store (env1 w) a s)))
            ∧ sessions w' = sessions others
            ∧ ∀ a, sessions w !! sessionId ≠ Some a → heap w' !! a = heap others !! a)
    as Hframe.
  { unfold message_endpoint in Hrun.
    destruct (sessions w !! sessionId) as [a0|] eqn:Hs;
      [|injection Hrun as _ <- _; exists w; by repeat split; try left].
    destruct (heap w !! a0) as [session|]; simpl in Hrun; [|done].
    destruct (closed session);
      [injection Hrun as _ <- _; exists w; by repeat split; try left|].
    destruct body as [e|request];
      [injection Hrun as _ <- _; exists (env1 w); split; [by right; left|done]|].
    destruct (heap (env1 w) !! a0) as [session0|]; simpl in Hrun; [|done].
    destruct (handle_mcp_request g request session0) as [[response s1] efs1].
    exists (after_router env2 (env1 w) a0 s1 efs1). split.
    { right. right. exists a0, s1. split; [done|]. unfold after_router.
      destruct (suspends_in_send efs1); [by right|by left]. }
    destruct response as [|kv response]; simpl in Hrun.
    - by injection Hrun as _ <- _.
    - destruct (heap (after_router env2 (env1 w) a0 s1 efs1) !! a0) as [s2|];
        simpl in Hrun; [|done].
      destruct (send_event s2 _) as [[b s3] efs2]. injection Hrun as _ <- _.
      split; [done|]. intros a Ha. simpl. rewrite lookup_insert_ne; [done|congruence]. }
  split; [exact Hframe|].
  intros -> ->. destruct Hframe as (others & Ho & H1 & H2). rewrite H1.
  destruct Ho as [->|[->|(a0 & s & Ha0 & [->| ->])]]; unfold undisturbed; simpl;
    (split; [done|]); intros a Ha; rewrite (H2 a Ha); unfold undisturbed; simpl;
    try done; rewrite lookup_insert_ne; [done|congruence|done|congruence].
Qed.

Lemma message_endpoint_isolated_witness :
  let g := mkGlobals (mkSettings "token" "42" "127.0.0.1" 8008 false) None in
  let w := mkWorld {[0 := new_session "s1"; 1 := new_session "s2"]}
                   {["s1" := 0; "s2" := 1]} in
  let request := mkRequest "2.0" (JInt 1) "initialize" None in
  ∃ w' efs,
    message_endpoint g undisturbed undisturbed w "s1" (inr request)
    = Some (Accepted, w', efs)
    ∧ heap w' !! 1 = heap w !! 1.
Proof.
  intros g w request.
  destruct (message_endpoint g undisturbed undisturbed w "s1" (inr request))
    as [[[result w'] efs]|] eqn:He; [|vm_compute in He; discriminate].
  assert (result = Accepted) as -> by (vm_compute in He; by injection He as <- _ _).
  exists w', efs. split; [reflexivity|].
  apply (proj2 (message_endpoint_isolated g undisturbed undisturbed w w' "s1"
                  (inr request) Accepted efs He) eq_refl eq_refl).
  vm_compute. discriminate.
Defined.

(** X18: a stream touches its own session only.  Whatever a resumption
    does, every session object other than the stream's own is as before,
    and so is every registry entry other than the one under its session's
    id. *)
Theorem sse_event_stream_isolated
    (sig : Signal) (st st' : Stream) (w w' : World) (session : SSESession)
    (frame : option string) (efs : list Effect) :
  heap w !! stream_session st = Some session →
  sse_event_stream sig st w = Some (st', w', frame, efs) →
  stream_session st' = stream_session st
  ∧ (∀ a, a ≠ stream_session st → heap w' !! a = heap w !! a)
  ∧ (∀ sid, sid ≠ session_id session → sessions w' !! sid = sessions w !! sid).
Proof.
  intros Hh Hstep. destruct st as [a0 url c t]. simpl in Hh.
  unfold sse_event_stream in Hstep. simpl in Hstep.
  destruct c; destruct sig as [|[| | |e]];
    unfold loop_except, outer_except, loop_test, clean_up, yield_keep_alive,
           finally_block in Hstep;
    simpl in Hstep; rewrite ?Hh in Hstep; simpl in Hstep;
    repeat match type of Hstep with
           | context [if ?b then _ else _] => destruct b
           | context [match take_event ?s with _ => _ end] =>
               destruct (take_event s) as [[? ?]|]
           | context [match sessions w !! ?k with _ => _ end] =>
               destruct (sessions w !! k)
           end;
    injection Hstep as <- <- <- <-; simpl;
    (split; [done|]); split; intros;
    rewrite ?lookup_insert_ne, ?lookup_delete_ne by done; done.
Qed.

Lemma sse_event_stream_isolated_witness :
  let w := mkWorld {[0 := new_session "s1"; 1 := new_session "s2"]}
                   {["s1" := 0; "s2" := 1]} in
  let st := mkStream 0 "http://127.0.0.1:8008" AtEventWait (Some TaskRunning) in
  heap w !! stream_session st = Some (new_session "s1")
  ∧ ∃ st' w' frame efs,
      sse_event_stream (Throw CancelledError) st w = Some (st', w', frame, efs)
      ∧ heap w' !! 1 = heap w !! 1
      ∧ sessions w' !! "s2" = sessions w !! "s2".
Proof.
  intros w st. split; [vm_compute; reflexivity|].
  destruct (sse_event_stream (Throw CancelledError) st w)
    as [[[[st' w'] frame] efs]|] eqn:Hs; [|vm_compute in Hs; discriminate].
  exists st', w', frame, efs. split; [reflexivity|].
  destruct (sse_event_stream_isolated (Throw CancelledError) st st' w w'
              (new_session "s1") frame efs) as (_ & H1 & H2);
    [vm_compute; reflexivity | exact Hs |].
  split; [apply H1; discriminate | apply H2; discriminate].
Defined.

(** ** The relay task *)



(** ** The route out of the main loop *)

(** X20: an exception (other than a timeout) at the wait or at the yield
    of an event ends the stream in this order: the error is logged, the
    relay task is cancelled, its cancellation is awaited, the session is
    closed and its registry entry removed; no frame is written and the
    generator returns. *)
Theorem broken_stream_tears_down_in_order
    (st : Stream) (w : World) (session : SSESession) (e : string) (a : nat) :
  control st = AtEventWait ∨ control st = AtEventYield →
  heap w !! stream_session st = Some session →
  sessions w !! session_id session = Some a →
  run_stream [quiet (Throw (OtherException e)); quiet (Throw CancelledError)] st w
  = Some (mkStream (stream_session st) (base_url st) Finished (Some TaskJoined),
          mkWorld (<[stream_session st := close session]> (heap w))
                  (delete (session_id session) (sessions w)),
          [],
          [Log ERROR ("Error in SSE stream: " +:+ e); TaskCancel; TaskJoin;
           SessionClose (session_id session); RegistryDelete (session_id session)]).
Proof.
  intros Hc Hh Hs. destruct st as [a0 url c t]. simpl in *.
  unfold quiet, run_stream, sse_event_stream.
  destruct Hc as [-> | ->]; simpl;
    unfold finally_block; simpl; rewrite Hh; simpl; rewrite Hs; reflexivity.
Qed.

Lemma broken_stream_tears_down_in_order_witness :
  let w := mkWorld {[0 := new_session "s1"]} {["s1" := 0]} in
  let st := mkStream 0 "http://127.0.0.1:8008" AtEventWait (Some TaskRunning) in
  ∃ w',
    run_stream [quiet (Throw (OtherException "boom")); quiet (Throw CancelledError)] st w
    = Some (mkStream 0 "http://127.0.0.1:8008" Finished (Some TaskJoined), w', [],
            [Log ERROR "Error in SSE stream: boom"; TaskCancel; TaskJoin;
             SessionClose "s1"; RegistryDelete "s1"]).
Proof.
  intros w st. eexists.
  apply (broken_stream_tears_down_in_order st w (new_session "s1") "boom" 0);
    [by left | vm_compute; reflexivity | vm_compute; reflexivity].
Defined.

(** ** Unknown tools *)

(** X15: a [tools/call] whose [name] can be hashed -- absent or null, a
    boolean, a number, a string -- and is not in the registry is answered
    with code 400 and the message [Unknown tool: ] followed by the name as
    Python prints it; no handler is invoked, nothing is logged and the
    session is untouched, whatever the arguments are. *)
Theorem unknown_tool_answer
    (g : Globals) (request : JSONRPCRequest) (s : SSESession) :
  request_method request = "tools/call" →
  hashable (py_get (params_or_empty request) "name") = true →
  registered (py_get (params_or_empty request) "name") = false →
  handle_mcp_request g request s
  = (error_envelope (request_id request) 400
       ("Unknown tool: " +:+ shown_name (py_get (params_or_empty request) "name")),
     s, []).
Proof.
  intros Hm Hh Hr. rewrite (route_tools_call _ _ _ Hm). unfold handle_tools_call.
  destruct (py_get (params_or_empty request) "name") as [|[]|n|name|l|o];
    try discriminate; try reflexivity.
  unfold registered in Hr. by destruct (tools_lookup TOOLS name).
Qed.

Lemma unknown_tool_answer_witness :
  let g := mkGlobals (mkSettings "token" "42" "127.0.0.1" 8008 false) None in
  let request := mkRequest "2.0" (JInt 3) "tools/call"
                           (Some [("arguments", JObj [("message", JStr "hi")])]) in
  hashable (py_get (params_or_empty request) "name") = true
  ∧ registered (py_get (params_or_empty request) "name") = false
  ∧ handle_mcp_request g request (new_session "s1")
    = (error_envelope (JInt 3) 400 "Unknown tool: None", new_session "s1", []).
Proof.
  split; [reflexivity|]. split; [reflexivity|].
  apply (unknown_tool_answer
           (mkGlobals (mkSettings "token" "42" "127.0.0.1" 8008 false) None)
           (mkRequest "2.0" (JInt 3) "tools/call"
                      (Some [("arguments", JObj [("message", JStr "hi")])]))
           (new_session "s1"));
    reflexivity.
Defined.

(** ** A closed session under a running stream *)

(** X22: once its session is closed, a waiting stream writes at most one
    more frame and leaves the loop.  If the wait times out it writes one
    keep-alive, if an event was still queued it writes that event; at the
    next test of the loop it cancels the relay task and waits for it. *)
Theorem closed_session_winds_stream_down
    (st : Stream) (w : World) (session : SSESession) :
  control st = AtEventWait →
  heap w !! stream_session st = Some session →
  closed session = true →
  run_stream [quiet (Throw TimeoutError); quiet Resume] st w
  = Some (mkStream (stream_session st) (base_url st) AtTaskJoin (Some TaskCancelling),
          w, [keep_alive_frame], [TaskCancel])
  ∧ ∀ event session1,
      take_event session = Some (event, session1) →
      run_stream [quiet Resume; quiet Resume] st w
      = Some (mkStream (stream_session st) (base_url st) AtTaskJoin (Some TaskCancelling),
              store w (stream_session st) session1, [event], [TaskCancel]).
Proof.
  intros Hc Hh Hcl. destruct st as [a url c t]. simpl in *. subst c. split.
  - unfold quiet, run_stream, sse_event_stream. simpl.
    unfold loop_test. simpl. rewrite Hh. simpl. by rewrite Hcl.
  - intros event session1 Ht.
    pose proof (take_event_keeps_closed _ _ _ Ht) as Hcl1. rewrite Hcl in Hcl1.
    unfold quiet, run_stream, sse_event_stream. simpl. rewrite Hh. simpl. rewrite Ht.
    simpl. unfold loop_test. simpl. rewrite lookup_insert_eq. simpl. by rewrite Hcl1.
Qed.

Lemma closed_session_winds_stream_down_witness :
  let session := close (mkSession "s1" (mkQueue ["last"] 100) (new_queue 100) true false) in
  let w := mkWorld {[0 := session]} {["s1" := 0]} in
  let st := mkStream 0 "http://127.0.0.1:8008" AtEventWait (Some TaskRunning) in
  heap w !! stream_session st = Some session
  ∧ closed session = true
  ∧ run_stream [quiet (Throw TimeoutError); quiet Resume] st w
    = Some (mkStream 0 "http://127.0.0.1:8008" AtTaskJoin (Some TaskCancelling),
            w, [keep_alive_frame], [TaskCancel]).
Proof.
  intros session w st. split; [vm_compute; reflexivity|]. split; [reflexivity|].
  apply (proj1 (closed_session_winds_stream_down st w session eq_refl
                  ltac:(vm_compute; reflexivity) eq_refl)).
Defined.

(** ** The answers of the call endpoint *)

(** X23: what the status of the call endpoint tells.  [accepted] is given
    exactly for a body that parsed on a session that was registered and
    open when the call arrived.  An error is 400, with nothing logged and
    the world as it was, or 500 carrying the text of the exception raised
    on the body, with the world as the other tasks left it during the read
    of the body: in both cases the call itself writes nothing, so nothing
    is enqueued and no JSON-RPC error goes down the stream for a call that
    was not accepted. *)
Theorem message_endpoint_status
    (g : Globals) (env1 env2 : World → World) (w w' : World) (sessionId : string)
    (body : string + JSONRPCRequest) (result : HTTPResult) (efs : list Effect) :
  message_endpoint g env1 env2 w sessionId body = Some (result, w', efs) →
  match result with
  | Accepted =>
      ∃ request a session,
        body = inr request ∧ sessions w !! sessionId = Some a
        ∧ heap w !! a = Some session ∧ closed session = false
  | HTTPError status detail =>
      (status = 400%Z ∧ efs = [] ∧ w' = w)
      ∨ (status = 500%Z ∧ body = inl detail
         ∧ efs = [Log ERROR ("Error processing message: " +:+ detail)]
         ∧ w' = env1 w)
  end.
Proof.
  unfold message_endpoint.
  destruct (sessions w !! sessionId) as [a|] eqn:Hs;
    [|intros Heq; injection Heq as <- <- <-; by left].
  destruct (heap w !! a) as [session|] eqn:Hh; simpl; [|done].
  destruct (closed session) eqn:Hc;
    [intros Heq; injection Heq as <- <- <-; by left|].
  destruct body as [e|request];
    [intros Heq; injection Heq as <- <- <-; by right|].
  destruct (heap (env1 w) !! a) as [session0|]; simpl; [|done].
  destruct (handle_mcp_request g request session0) as [[response s1] efs1].
  destruct response as [|kv response]; simpl.
  - intros Heq. injection Heq as <- _ _. by exists request, a, session.
  - destruct (heap (after_router env2 (env1 w) a s1 efs1) !! a) as [s2|]; simpl; [|done].
    destruct (send_event s2 _) as [[b s3] efs2]. intros Heq. injection Heq as <- _ _.
    by exists request, a, session.
Qed.

Lemma message_endpoint_status_witness :
  let g := mkGlobals (mkSettings "token" "42" "127.0.0.1" 8008 false) None in
  let w := mkWorld {[0 := new_session "s1"]} {["s1" := 0]} in
  ∃ status detail w' efs,
    message_endpoint g undisturbed undisturbed w "s1"
                     (inl "Expecting value: line 1 column 1 (char 0)")
    = Some (HTTPError status detail, w', efs)
    ∧ w' = w
    ∧ status = 500%Z.
Proof.
  intros g w.
  destruct (message_endpoint g undisturbed undisturbed w "s1"
              (inl "Expecting value: line 1 column 1 (char 0)"))
    as [[[[|status detail] w'] efs]|] eqn:He;
    [vm_compute in He; discriminate | | vm_compute in He; discriminate].
  exists status, detail, w', efs. split; [reflexivity|].
  destruct (message_endpoint_status g undisturbed undisturbed w w' "s1" _ _ _ He)
    as [(_ & Hefs & _)|(Hst & _ & _ & Hw)].
  - subst efs. vm_compute in He. discriminate.
  - by split.
Defined.
